(** * analyze_courses.py: courses and hours by company

    A shallow embedding of [main] from [analyze_courses.py] and the proofs
    of its specification.

    Conventions of the embedding.
    - A Python [str] is represented by its UTF-8 encoding, a [string] of
      bytes; [len] counts code points ([py_len]).
    - A Python [float] is an IEEE 754 binary64 number: [PrimFloat.float],
      with [PrimFloat.add] for [+] (round to nearest, ties to even).
    - A Python [int] that counts rows is a [nat].
    - Standard output is the list of the texts of the successive [print]
      calls; [stdout_text] is the text written.
    - The input file is what [open] and [csv.reader] make of it: [None]
      when it cannot be opened, else the rows of fields, header first.
      A file that opens and then cannot be decoded or split into fields
      is outside the model, and so is a standard output that refuses a
      text.
    - The builtin [float(str)] is a parameter of the development;
      [PyFloat.of_decimal] stands for it on the sample files. *)

From Stdlib Require Import List String Ascii Bool Arith ZArith QArith Qabs Lia.
From Stdlib Require Import Permutation Sorted DecimalString.
From Stdlib Require Import Floats.
Import ListNotations.

Local Open Scope list_scope.
Local Open Scope nat_scope.
Local Open Scope string_scope.

(** ** Python strings *)

Module PyStr.

(** [s * n] for a string [s]. *)
Fixpoint mul (s : string) (n : nat) : string :=
  match n with
  | O => ""
  | S n' => s ++ mul s n'
  end.

Definition spaces (n : nat) : string := mul " " n.

(** A byte [10xxxxxx] continues a code point of the UTF-8 encoding. *)
Definition is_continuation (a : ascii) : bool :=
  let n := nat_of_ascii a in ((128 <=? n) && (n <? 192))%nat.

(** [len(s)]: the number of code points. *)
Fixpoint py_len (s : string) : nat :=
  match s with
  | EmptyString => 0
  | String a s' => if is_continuation a then py_len s' else S (py_len s')
  end.

(** [s.ljust(w)] and [s.rjust(w)]: a minimum width, never a cut. *)
Definition ljust (w : nat) (s : string) : string := s ++ spaces (w - py_len s).
Definition rjust (w : nat) (s : string) : string := spaces (w - py_len s) ++ s.

(** [str(n)] for a non-negative [int]. *)
Definition of_nat (n : nat) : string := NilZero.string_of_uint (Nat.to_uint n).
Definition of_Z (n : Z) : string := NilZero.string_of_uint (N.to_uint (Z.to_N n)).

(** [s[:n]]: the first [n] code points. The recursion is on the bytes,
    [k] counts the code points still to take. *)
Fixpoint slice_to (k : nat) (s : string) : string :=
  match s with
  | EmptyString => ""
  | String a s' =>
      if is_continuation a then String a (slice_to k s')
      else match k with
           | O => ""
           | S k' => String a (slice_to k' s')
           end
  end.

End PyStr.

(** ** Python floats *)

Module PyFloat.

(** [n / d] rounded to the nearest integer, ties to the even one. *)
Definition round_half_even (n d : Z) : Z :=
  let q := (n / d)%Z in
  let r := (n mod d)%Z in
  match (2 * r ?= d)%Z with
  | Lt => q
  | Gt => (q + 1)%Z
  | Eq => if Z.even q then q else (q + 1)%Z
  end.

(** [format(x, '.1f')]: the exact binary value rounded to one decimal,
    ties to even; the sign is printed even for a negative zero. *)
Definition format_1f (x : float) : string :=
  match Prim2SF x with
  | S754_nan => "nan"
  | S754_infinity s => if s then "-inf" else "inf"
  | S754_zero s => if s then "-0.0" else "0.0"
  | S754_finite s m e =>
      let tenths :=
        match e with
        | Zneg p => round_half_even (10 * Zpos m) (Z.pow_pos 2 p)
        | _ => (10 * Zpos m * 2 ^ e)%Z
        end in
      (if s then "-" else "")
        ++ PyStr.of_Z (tenths / 10) ++ "." ++ PyStr.of_Z (tenths mod 10)
  end.

(** The exact value of a finite float ([0] for [inf] and [nan]). *)
Definition to_Q (x : float) : Q :=
  match Prim2SF x with
  | S754_finite s m e =>
      let v := (inject_Z (Zpos m) * Qpower 2 e)%Q in
      if s then Qopp v else v
  | _ => 0%Q
  end.

(** *** A fragment of [float(str)]

    [of_decimal] reads the literals [[sign] digits [. digits]], [inf]
    and [nan], and rounds to the nearest binary64, ties to even, as
    [float] does. It rejects everything else, also the exponents,
    underscores and surrounding blanks that [float] accepts: it stands
    for [float] only on the literals it reads. *)

Definition digit_value (a : ascii) : option Z :=
  let n := nat_of_ascii a in
  if ((48 <=? n) && (n <=? 57))%nat then Some (Z.of_nat (n - 48)) else None.

(** Digits read so far as [(mantissa, number of digits read)]. *)
Fixpoint digits (s : string) (acc : Z) (n : nat) : option (Z * nat * string) :=
  match s with
  | String a s' =>
      match digit_value a with
      | Some d => digits s' (10 * acc + d)%Z (S n)
      | None => Some (acc, n, s)
      end
  | EmptyString => Some (acc, n, s)
  end.

Definition SF_of_int (neg : bool) (m : Z) : spec_float :=
  binary_normalize prec emax (if neg then (- m)%Z else m) 0 neg.

Definition SF_of_ratio (neg : bool) (m : Z) (k : nat) : spec_float :=
  match m with
  | Zpos p =>
      SFdiv prec emax (S754_finite neg p 0)
            (S754_finite false (Pos.pow 10 (Pos.of_nat k)) 0)
  | _ => S754_zero neg
  end.

Definition of_unsigned (neg : bool) (s : string) : option float :=
  if (s =? "inf")%string then Some (if neg then neg_infinity else infinity)
  else if (s =? "nan")%string then Some nan
  else
    match digits s 0%Z 0 with
    | Some (m, n, "") =>
        if (n =? 0)%nat then None
        else Some (SF2Prim (SF_of_int neg m))
    | Some (m, n, String "." frac) =>
        match digits frac m 0 with
        | Some (m', k, "") =>
            if ((n =? 0) && (k =? 0))%nat then None
            else if (k =? 0)%nat
                 then Some (SF2Prim (SF_of_int neg m'))
                 else Some (SF2Prim (SF_of_ratio neg m' k))
        | _ => None
        end
    | _ => None
    end.

Definition of_decimal (s : string) : option float :=
  match s with
  | String "-" s' => of_unsigned true s'
  | String "+" s' => of_unsigned false s'
  | _ => of_unsigned false s
  end.

End PyFloat.

(** ** Uncaught exceptions and standard output *)

Inductive exn : Type :=
| OSError                 (* [open]: the file is missing or unreadable *)
| KeyError (key : string) (* [row[key]]: no such column *)
| ValueError              (* [float(s)]: [s] is not a number *)
| TypeError.              (* [float(None)], [format(None, '20s')] *)

Definition stdout : Type := list string.

(** The text written: [print] ends each of its texts with a newline. *)
Definition stdout_text (out : stdout) : string :=
  fold_right (fun s acc => s ++ String "010" acc) "" out.

(** A run either raises or returns, and keeps what was printed before. *)
Definition M (A : Type) : Type := stdout -> stdout * (exn + A).

Definition ret {A} (a : A) : M A := fun out => (out, inr a).
Definition raise {A} (e : exn) : M A := fun out => (out, inl e).
Definition bind {A B} (c : M A) (k : A -> M B) : M B :=
  fun out =>
    match c out with
    | (out', inr a) => k a out'
    | (out', inl e) => (out', inl e)
    end.
Definition lift {A} (r : exn + A) : M A :=
  match r with
  | inl e => raise e
  | inr a => ret a
  end.
Definition print (s : string) : M unit := fun out => ((out ++ [s])%list, inr tt).

Declare Scope py_scope.
Delimit Scope py_scope with py.
Notation "x <- c ;; k" := (bind c (fun x => k))
  (at level 61, c at next level, right associativity) : py_scope.
Notation "c ;; k" := (bind c (fun _ => k))
  (at level 61, right associativity) : py_scope.

(** ** The input file *)

(** The rows [csv.reader] yields, each a list of fields; a blank line is
    the empty row. The first row is the header. *)
Definition csv_rows : Type := list (list string).

(** A value of a [DictReader] row: a field, or [None] ([restval]) where the
    row is shorter than the header. *)
Definition field : Type := option string.

(** A row as a [dict], in the order of its assignments: a later binding of
    a key replaces an earlier one. The fields beyond the header go under
    the key [None], which no [str] key reaches: they are left out. *)
Definition pyrow : Type := list (string * field).

Fixpoint zip_row (fieldnames : list string) (row : list string) : pyrow :=
  match fieldnames with
  | [] => []
  | k :: ks =>
      match row with
      | [] => (k, None) :: zip_row ks []
      | v :: vs => (k, Some v) :: zip_row ks vs
      end
  end.

Definition is_blank (row : list string) : bool :=
  match row with
  | [] => true
  | _ => false
  end.

(** [csv.DictReader(file)]: the header is the first row, blank rows are
    skipped, and a file with no row at all yields nothing. *)
Definition DictReader (file : csv_rows) : list pyrow :=
  match file with
  | [] => []
  | fieldnames :: rest =>
      map (zip_row fieldnames) (filter (fun r => negb (is_blank r)) rest)
  end.

(** [d.get(key)]: the last binding of [key]. *)
Fixpoint dict_get (key : string) (d : pyrow) : option field :=
  match d with
  | [] => None
  | (k, v) :: d' =>
      match dict_get key d' with
      | Some v' => Some v'
      | None => if (k =? key)%string then Some v else None
      end
  end.

(** [row[key]] *)
Definition getitem (row : pyrow) (key : string) : exn + field :=
  match dict_get key row with
  | Some v => inr v
  | None => inl (KeyError key)
  end.

(** ** The aggregate mapping *)

(** [{'courses': 0, 'hours': 0.0}] *)
Record data : Type := { courses : nat; hours : float }.

(** A key of [company_data]: a company name, or [None] from a short row. *)
Definition company_key : Type := option string.

Definition key_eqb (a b : company_key) : bool :=
  match a, b with
  | Some x, Some y => (x =? y)%string
  | None, None => true
  | _, _ => false
  end.

(** [company_data]: a [dict] keeps its keys in the order of insertion. *)
Definition company_dict : Type := list (company_key * data).

Fixpoint contains (company : company_key) (d : company_dict) : bool :=
  match d with
  | [] => false
  | (k, _) :: d' => key_eqb k company || contains company d'
  end.

(** [defaultdict.__missing__]: a key looked up and not found is inserted,
    last, with the value of the factory. *)
Definition subscript (company : company_key) (d : company_dict) : company_dict :=
  if contains company d then d
  else (d ++ [(company, {| courses := 0; hours := 0%float |})])%list.

Fixpoint update (company : company_key) (f : data -> data) (d : company_dict)
  : company_dict :=
  match d with
  | [] => []
  | (k, v) :: d' =>
      if key_eqb k company then (k, f v) :: d'
      else (k, v) :: update company f d'
  end.

(** The value [company_data[company]] reads: the value of the key, or
    that of the factory for a key that is not there yet. *)
Fixpoint item (company : company_key) (d : company_dict) : data :=
  match d with
  | [] => {| courses := 0; hours := 0%float |}
  | (k, v) :: d' => if key_eqb k company then v else item company d'
  end.

(** [company_data[company]['courses'] += 1] *)
Definition add_course (company : company_key) (d : company_dict) : company_dict :=
  update company
    (fun v => {| courses := courses v + 1; hours := hours v |})
    (subscript company d).

(** [company_data[company]['hours'] += duration] *)
Definition add_hours (company : company_key) (duration : float)
  (d : company_dict) : company_dict :=
  update company
    (fun v => {| courses := courses v; hours := (hours v + duration)%float |})
    (subscript company d).

(** ** [sorted(items, key=key, reverse=True)]

    [sorted] is stable, also with [reverse=True]: the items come out by
    decreasing key, items of equal key in the order they had. *)

Section StableSort.

Context {A : Type} (key : A -> nat).

Fixpoint insert_reverse (x : A) (l : list A) : list A :=
  match l with
  | [] => [x]
  | y :: l' =>
      if (key x <? key y)%nat then y :: insert_reverse x l'
      else x :: y :: l'
  end.

Definition sorted_reverse (l : list A) : list A :=
  fold_right insert_reverse [] l.

(** [a] may come before [b]; [a] has the key [k]. *)
Definition by_key (a b : A) : Prop := key b <= key a.
Definition class (k : nat) (a : A) : bool := (key a =? k)%nat.

(** What the documentation of [sorted] promises of its result [out]:
    the keys decrease, and the items of each key are those of the
    argument, in the order they had there. *)
Definition stable_sorted_reverse (l out : list A) : Prop :=
  StronglySorted by_key out
  /\ forall k, filter (class k) out = filter (class k) l.

(** The same promise as an order, for a list that is in the order
    [before]: a greater key first, and [before] among equal keys. *)
Definition lex (before : A -> A -> Prop) (a b : A) : Prop :=
  key b < key a \/ (key a = key b /\ before a b).

End StableSort.

(** ** Formatting *)

(** [format(company, '20s')]; [None] does not take a format. *)
Definition format_20s (company : company_key) : exn + string :=
  match company with
  | Some s => inr (PyStr.ljust 20 s)
  | None => inl TypeError
  end.

(** [format(courses, '4d')] and [format(hours, '8.1f')] *)
Definition format_4d (n : nat) : string := PyStr.rjust 4 (PyStr.of_nat n).
Definition format_8_1f (x : float) : string := PyStr.rjust 8 (PyFloat.format_1f x).

(** [f"{company:20s}: {courses:4d} courses  |  {hours:8.1f} hours"] *)
Definition company_line (company : company_key) (courses : nat) (hours : float)
  : exn + string :=
  match format_20s company with
  | inl e => inl e
  | inr name =>
      inr (name ++ ": " ++ format_4d courses ++ " courses  |  "
                ++ format_8_1f hours ++ " hours")
  end.

(** [f"TOTAL: {total_courses} courses  |  {total_hours:.1f} hours"] *)
Definition total_line (total_courses : nat) (total_hours : float) : string :=
  "TOTAL: " ++ PyStr.of_nat total_courses ++ " courses  |  "
            ++ PyFloat.format_1f total_hours ++ " hours".

Definition banner : string := PyStr.mul "=" 70.
Definition title : string := "COURSES AND HOURS BY COMPANY".

(** [f"Reading file: {csv_path}\n"] *)
Definition reading_line (csv_path : string) : string :=
  "Reading file: " ++ csv_path ++ String "010" "".

(** ** The program *)

Section Program.

(** [float(s)] for a [str]: [None] when it raises [ValueError]. *)
Variable py_float : string -> option float.

(** [float(v)] for a value of a row. *)
Definition float_of (v : field) : exn + float :=
  match v with
  | None => inl TypeError
  | Some s =>
      match py_float s with
      | Some x => inr x
      | None => inl ValueError
      end
  end.

(** The body of the loop over the rows. *)
Definition process_row (company_data : company_dict) (row : pyrow)
  : exn + company_dict :=
  match getitem row "company" with
  | inl e => inl e
  | inr company =>
      match getitem row "duration" with
      | inl e => inl e
      | inr text =>
          match float_of text with
          | inl e => inl e
          | inr duration =>
              inr (add_hours company duration (add_course company company_data))
          end
      end
  end.

(** [for row in reader: ...] *)
Fixpoint aggregate (company_data : company_dict) (reader : list pyrow)
  : exn + company_dict :=
  match reader with
  | [] => inr company_data
  | row :: reader' =>
      match process_row company_data row with
      | inl e => inl e
      | inr company_data' => aggregate company_data' reader'
      end
  end.

(** [with open(csv_path, ...) as file: ...] *)
Definition load (file : option csv_rows) : exn + company_dict :=
  match file with
  | None => inl OSError
  | Some rows => aggregate [] (DictReader rows)
  end.

(** [for company, data in sorted_companies: ...] *)
Fixpoint report (sorted_companies : company_dict)
  (total_courses : nat) (total_hours : float) : M (nat * float) :=
  match sorted_companies with
  | [] => ret (total_courses, total_hours)
  | (company, data) :: rest =>
      let courses := courses data in
      let hours := hours data in
      let total_courses := total_courses + courses in
      let total_hours := (total_hours + hours)%float in
      (line <- lift (company_line company courses hours) ;;
       print line ;;
       report rest total_courses total_hours)%py
  end.

(** [# Display results]: the banners, the lines and the totals. *)
Definition display (sorted_companies : company_dict) : M unit :=
  (print banner ;;
   print title ;;
   print banner ;;
   print "" ;;
   totals <- report sorted_companies 0 0%float ;;
   print "" ;;
   print banner ;;
   print (total_line (fst totals) (snd totals)) ;;
   print banner ;;
   print "")%py.

Definition main (csv_path : string) (file : option csv_rows) : M unit :=
  (print (reading_line csv_path) ;;
   company_data <- lift (load file) ;;
   let sorted_companies :=
     sorted_reverse (fun x => courses (snd x)) company_data in
   display sorted_companies)%py.

(** A run of the program from an empty standard output. *)
Definition run (csv_path : string) (file : option csv_rows)
  : stdout * (exn + unit) :=
  main csv_path file [].

(** The runs that the documentation of [sorted] allows: [sorted] may be
    any function that keeps its promise. *)
Inductive runs_to (csv_path : string) (file : option csv_rows)
  : stdout * (exn + unit) -> Prop :=
| runs_to_error (e : exn) :
    load file = inl e ->
    runs_to csv_path file ([reading_line csv_path], inl e)
| runs_to_display (company_data sorted_companies : company_dict) :
    load file = inr company_data ->
    stable_sorted_reverse (fun x => courses (snd x)) company_data
                          sorted_companies ->
    runs_to csv_path file (display sorted_companies [reading_line csv_path]).

End Program.

(** ** The data model of the specification *)

(** A course record: the company and the duration of a data row. *)
Definition course_record : Type := (string * float)%type.

(** The sum of floats as Python computes it, from [0.0], left to right. *)
Definition float_sum (l : list float) : float :=
  fold_left PrimFloat.add l 0%float.

Section Records.

Variable py_float : string -> option float.

(** The record of a row, when the row has a company, and a duration
    that [float] converts. *)
Definition record_of (row : pyrow) : option course_record :=
  match dict_get "company" row, dict_get "duration" row with
  | Some (Some company), Some (Some text) =>
      match py_float text with
      | Some duration => Some (company, duration)
      | None => None
      end
  | _, _ => None
  end.

Fixpoint records_of (rows : list pyrow) : option (list course_record) :=
  match rows with
  | [] => Some []
  | row :: rows' =>
      match record_of row, records_of rows' with
      | Some r, Some rs => Some (r :: rs)
      | _, _ => None
      end
  end.

(** A valid input file: it opens, and each of its data rows is a
    record. [records] are then its records, in file order. *)
Definition valid_file (file : option csv_rows) (records : list course_record)
  : Prop :=
  exists rows, file = Some rows /\ records_of (DictReader rows) = Some records.

(** The duration of a row converts. *)
Definition duration_converts (row : pyrow) : bool :=
  match dict_get "duration" row with
  | Some (Some text) =>
      match py_float text with
      | Some _ => true
      | None => false
      end
  | _ => false
  end.

(** The duration of a row is a text that [float] refuses. *)
Definition duration_unparseable (row : pyrow) : bool :=
  match dict_get "duration" row with
  | Some (Some text) =>
      match py_float text with
      | Some _ => false
      | None => true
      end
  | _ => false
  end.

End Records.

(** The rows of a company, their number and the sum of their durations. *)
Definition rows_of (company : string) (records : list course_record)
  : list course_record :=
  filter (fun r => (fst r =? company)%string) records.

Definition course_count (company : string) (records : list course_record) : nat :=
  List.length (rows_of company records).

Definition total_hours_of (company : string) (records : list course_record)
  : float :=
  float_sum (map snd (rows_of company records)).

(** The distinct values of a list, in the order of their first occurrence. *)
Fixpoint first_seen (l : list string) : list string :=
  match l with
  | [] => []
  | x :: l' => x :: filter (fun y => negb (y =? x)%string) (first_seen l')
  end.

(** The position of the first occurrence of [x] in [l] ([length l] when
    there is none). *)
Fixpoint first_index (x : string) (l : list string) : nat :=
  match l with
  | [] => 0
  | y :: l' => if (y =? x)%string then 0 else S (first_index x l')
  end.

Definition companies (records : list course_record) : list string :=
  first_seen (map fst records).

(** The aggregate of a company, and its item in [company_data]. *)
Definition data_of (records : list course_record) (company : string) : data :=
  {| courses := course_count company records;
     hours := total_hours_of company records |}.

Definition entry (h : string -> data) (company : string) : company_key * data :=
  (Some company, h company).

Definition aggregate_of (records : list course_record)
  : string -> company_key * data :=
  entry (data_of records).

(** One turn of the loop on a record. *)
Definition add_record (d : company_dict) (r : course_record) : company_dict :=
  add_hours (Some (fst r)) (snd r) (add_course (Some (fst r)) d).

(** The text of a per-company line for a company that is a [str]. *)
Definition line_text (company : string) (courses : nat) (hours : float) : string :=
  PyStr.ljust 20 company ++ ": " ++ format_4d courses ++ " courses  |  "
    ++ format_8_1f hours ++ " hours".

Definition line_of (records : list course_record) (company : string) : string :=
  line_text company (course_count company records)
            (total_hours_of company records).

(** The order of the report: an earlier company has more courses than a
    later one, or as many and a first row that comes earlier in the file. *)
Definition report_order (records : list course_record) (a b : string) : Prop :=
  course_count b records < course_count a records
  \/ (course_count a records = course_count b records
      /\ first_index a (map fst records) < first_index b (map fst records)).

(** The companies as [sorted] orders their items. *)
Definition printed_companies (records : list course_record) : list string :=
  sorted_reverse (fun c => course_count c records) (companies records).

(** The report of a successful run, given the per-company lines and the
    totals. *)
Definition report_text (csv_path : string) (lines : list string)
  (total_courses : nat) (total_hours : float) : stdout :=
  ([reading_line csv_path; banner; title; banner; ""]
     ++ lines
     ++ [""; banner; total_line total_courses total_hours; banner; ""])%list.

(** *** The layout of the specification

    The per-company line in the words of the specification: the company
    padded and truncated to 20 characters. *)
Definition spec_company_field (company : string) : string :=
  PyStr.ljust 20 (PyStr.slice_to 20 company).

Definition spec_line_text (company : string) (courses : nat) (hours : float)
  : string :=
  spec_company_field company ++ ": " ++ format_4d courses ++ " courses  |  "
    ++ format_8_1f hours ++ " hours".

(** A total [shown] is the sum [exact] of the durations up to the rounding
    to one decimal of the display. *)
Definition within_display_rounding (shown : float) (exact : Q) : Prop :=
  (Qabs (PyFloat.to_Q shown - exact) <= 1 # 20)%Q.

Definition exact_sum (l : list float) : Q :=
  fold_left (fun acc x => (acc + PyFloat.to_Q x)%Q) l 0%Q.

(** ** Sample files *)

(** The scenario of the specification: two courses of Acme, one of Globex. *)
Definition acme_file : csv_rows :=
  [["company"; "duration"];
   ["Acme"; "2.5"]; ["Acme"; "1.5"]; ["Globex"; "3.0"]].

Definition acme_records : list course_record :=
  [("Acme", 2.5%float); ("Acme", 1.5%float); ("Globex", 3%float)].

(** The data row of a file whose header lacks the column [duration]. *)
Definition no_duration_rows : csv_rows := [["Acme"; "2.5"]].

(** Hours beyond 2^53, where adding 1.0 is lost to rounding. *)
Definition big_hours_file : csv_rows :=
  [["company"; "duration"];
   ["A"; "9007199254740992"]; ["A"; "1"]; ["A"; "1"];
   ["B"; "1"]; ["B"; "1"]; ["B"; "1"]].

Definition big_hours_records : list course_record :=
  [("A", 9007199254740992%float); ("A", 1%float); ("A", 1%float);
   ("B", 1%float); ("B", 1%float); ("B", 1%float)].

(** Durations that are negative, infinite and not a number. *)
Definition odd_hours_file : csv_rows :=
  [["company"; "duration"];
   ["Acme"; "-2"]; ["Acme"; "inf"]; ["Globex"; "nan"]].

(** The records of [odd_hours_file] after the first. *)
Definition odd_hours_rest : list course_record :=
  [("Acme", infinity); ("Globex", nan)].

(** A header without the column [company], and a duration that is no
    number. *)
Definition no_company_file : csv_rows := [["duration"]; ["abc"]].

(** A row too short to have a duration, before a duration that is no
    number. *)
Definition short_row_file : csv_rows :=
  [["company"; "duration"]; ["Acme"]; ["Acme"; "abc"]].

(** Data rows with a duration that is no number in the second. *)
Definition bad_duration_rows : csv_rows :=
  [["Acme"; "2.5"]; ["Acme"; "abc"]; ["Globex"; "3.0"]].

(** The scenario with Globex first: the sort moves Acme before it. *)
Definition globex_first_file : csv_rows :=
  [["company"; "duration"];
   ["Globex"; "3.0"]; ["Acme"; "2.5"]; ["Acme"; "1.5"]].

Definition globex_first_data : company_dict :=
  [(Some "Globex", {| courses := 1; hours := 3%float |});
   (Some "Acme", {| courses := 2; hours := 4%float |})].

Definition globex_first_sorted : company_dict :=
  [(Some "Acme", {| courses := 2; hours := 4%float |});
   (Some "Globex", {| courses := 1; hours := 3%float |})].

(** A company name of 31 characters. *)
Definition long_name_file : csv_rows :=
  [["company"; "duration"]; ["International Business Machines"; "1.5"]].

Definition long_name_records : list course_record :=
  [("International Business Machines", 1.5%float)].

(** ** Rows, items and files for the further properties *)

(** Two rows that hold the same company and the same duration. *)
Definition same_fields (r1 r2 : pyrow) : Prop :=
  dict_get "company" r1 = dict_get "company" r2
  /\ dict_get "duration" r1 = dict_get "duration" r2.

(** The item of a company that is a [str], and its line. *)
Definition str_item (p : string * data) : company_key * data :=
  (Some (fst p), snd p).

Definition item_line (p : string * data) : string :=
  line_text (fst p) (courses (snd p)) (hours (snd p)).

(** The sum of the course counts of a mapping. *)
Definition courses_total (d : company_dict) : nat :=
  list_sum (map (fun it => courses (snd it)) d).

(** The number of the rows whose company is the key [k]. *)
Definition company_is (k : company_key) (row : pyrow) : bool :=
  match dict_get "company" row with
  | Some c => key_eqb c k
  | None => false
  end.

Definition rows_with (k : company_key) (rows : list pyrow) : nat :=
  List.length (filter (company_is k) rows).

(** The scenario of the specification in a file with other columns, the
    company last. *)
Definition catalog_file : csv_rows :=
  [["title"; "duration"; "level"; "company"];
   ["Logic"; "2.5"; "basic"; "Acme"];
   ["Proofs"; "1.5"; "basic"; "Acme"];
   ["Tactics"; "3.0"; "advanced"; "Globex"]].

(** The company after the duration, and a last row without company. *)
Definition short_company_file : csv_rows :=
  [["duration"; "company"]; ["2.5"; "Acme"]; ["1.5"; "Acme"]; ["3.0"]].

Definition short_company_data : company_dict :=
  [(Some "Acme", {| courses := 2; hours := 4%float |});
   (None, {| courses := 1; hours := 3%float |})].

(** * Proofs *)

Local Open Scope list_scope.
Local Open Scope nat_scope.

(** ** The stable sort *)

Section StableSortFacts.

Context {A : Type} (key : A -> nat).

Lemma insert_reverse_perm (x : A) (l : list A) :
  Permutation (x :: l) (insert_reverse key x l).
Proof.
  induction l as [|y l IH]; simpl.
  - apply Permutation_refl.
  - destruct (key x <? key y).
    + eapply perm_trans; [apply perm_swap|]. now apply perm_skip.
    + apply Permutation_refl.
Qed.

Lemma sorted_reverse_perm (l : list A) :
  Permutation l (sorted_reverse key l).
Proof.
  induction l as [|x l IH]; simpl.
  - apply perm_nil.
  - eapply perm_trans; [apply perm_skip, IH|]. apply insert_reverse_perm.
Qed.

Lemma insert_reverse_class (k : nat) (x : A) (l : list A) :
  filter (class key k) (insert_reverse key x l) = filter (class key k) (x :: l).
Proof.
  induction l as [|y l IH]; [reflexivity|].
  simpl insert_reverse. destruct (key x <? key y) eqn:Hlt; [|reflexivity].
  apply Nat.ltb_lt in Hlt.
  change (filter (class key k) (y :: insert_reverse key x l))
    with (if class key k y then y :: filter (class key k) (insert_reverse key x l)
          else filter (class key k) (insert_reverse key x l)).
  rewrite IH. simpl. unfold class.
  destruct (key x =? k) eqn:Hx, (key y =? k) eqn:Hy; try reflexivity.
  apply Nat.eqb_eq in Hx, Hy. lia.
Qed.

Lemma sorted_reverse_class (k : nat) (l : list A) :
  filter (class key k) (sorted_reverse key l) = filter (class key k) l.
Proof.
  induction l as [|x l IH]; [reflexivity|].
  simpl sorted_reverse. rewrite insert_reverse_class. simpl. now rewrite IH.
Qed.

Lemma insert_reverse_by_key (x : A) (l : list A) :
  StronglySorted (by_key key) l -> StronglySorted (by_key key) (insert_reverse key x l).
Proof.
  induction 1 as [|y l Hl IH Hy]; simpl.
  - repeat constructor.
  - destruct (key x <? key y) eqn:Hlt.
    + apply Nat.ltb_lt in Hlt. constructor; [exact IH|].
      eapply Permutation_Forall; [apply insert_reverse_perm|].
      constructor; [unfold by_key; lia | exact Hy].
    + apply Nat.ltb_ge in Hlt. constructor; [now constructor|].
      constructor; [exact Hlt|].
      eapply Forall_impl; [|exact Hy]. unfold by_key. intros; lia.
Qed.

Lemma sorted_reverse_by_key (l : list A) :
  StronglySorted (by_key key) (sorted_reverse key l).
Proof.
  induction l as [|x l IH]; simpl; [constructor|].
  now apply insert_reverse_by_key.
Qed.

(** The model of [sorted] keeps the promise of [sorted]. *)
Lemma sorted_reverse_stable (l : list A) :
  stable_sorted_reverse key l (sorted_reverse key l).
Proof.
  split; [apply sorted_reverse_by_key | intro k; apply sorted_reverse_class].
Qed.

Lemma class_nil_all (l : list A) :
  (forall k, filter (class key k) l = []) -> l = [].
Proof.
  destruct l as [|y l]; [reflexivity|]. intro H.
  specialize (H (key y)). simpl in H. unfold class in H.
  rewrite Nat.eqb_refl in H. discriminate.
Qed.

Lemma class_head_in (x : A) (l o : list A) :
  filter (class key (key x)) o = filter (class key (key x)) (x :: l) -> In x o.
Proof.
  simpl. unfold class at 2. rewrite Nat.eqb_refl. intro H.
  assert (Hin : In x (filter (class key (key x)) o)) by (rewrite H; now left).
  now apply filter_In in Hin.
Qed.

(** The promise of [sorted] leaves no choice: a stable sort has one
    result. *)
Lemma sorted_by_class_unique (o1 o2 : list A) :
  StronglySorted (by_key key) o1 -> StronglySorted (by_key key) o2 ->
  (forall k, filter (class key k) o1 = filter (class key k) o2) ->
  o1 = o2.
Proof.
  intro H1. revert o2.
  induction H1 as [|x o1 Hs1 IH Hx]; intros o2 H2 Hc.
  - symmetry. apply class_nil_all. intro k. now rewrite <- Hc.
  - destruct H2 as [|y o2 Hs2 Hy].
    + specialize (Hc (key x)). simpl in Hc. unfold class in Hc.
      rewrite Nat.eqb_refl in Hc. discriminate.
    + assert (Hk : key x = key y).
      { destruct (Nat.eq_dec (key x) (key y)) as [E|N]; [exact E|].
        assert (Hxin : In x (y :: o2)) by (apply (class_head_in x o1), eq_sym, Hc).
        assert (Hyin : In y (x :: o1)) by (apply (class_head_in y o2), Hc).
        destruct Hxin as [E|Hxin]; [now subst|].
        destruct Hyin as [E|Hyin]; [now subst|].
        rewrite Forall_forall in Hx, Hy.
        specialize (Hx _ Hyin). specialize (Hy _ Hxin).
        unfold by_key in Hx, Hy. lia. }
      assert (Hhead := Hc (key x)). simpl in Hhead. unfold class in Hhead.
      rewrite <- Hk, Nat.eqb_refl in Hhead.
      injection Hhead as Hxy Htl. subst y. f_equal.
      apply IH; [exact Hs2|]. intro k.
      destruct (Nat.eq_dec k (key x)) as [->|N]; [exact Htl|].
      specialize (Hc k). simpl in Hc. unfold class in Hc.
      apply Nat.eqb_neq in N. rewrite Nat.eqb_sym in N. rewrite N in Hc.
      exact Hc.
Qed.

Lemma stable_sorted_reverse_unique (l o1 o2 : list A) :
  stable_sorted_reverse key l o1 -> stable_sorted_reverse key l o2 -> o1 = o2.
Proof.
  intros [S1 C1] [S2 C2]. apply sorted_by_class_unique; try assumption.
  intro k. now rewrite C1, C2.
Qed.

(** Stability, as an order: a list in the order [before] comes out in
    the order "greater key, or equal key and [before]". *)
Variable before : A -> A -> Prop.


Lemma insert_reverse_lex (x : A) (l : list A) :
  StronglySorted (lex key before) l -> Forall (before x) l ->
  StronglySorted (lex key before) (insert_reverse key x l).
Proof.
  induction 1 as [|y l Hl IH Hy]; intro Hx; simpl.
  - repeat constructor.
  - inversion Hx as [|? ? Hxy Hxl]; subst.
    destruct (key x <? key y) eqn:Hlt.
    + apply Nat.ltb_lt in Hlt. constructor; [now apply IH|].
      eapply Permutation_Forall; [apply insert_reverse_perm|].
      constructor; [left; exact Hlt | exact Hy].
    + apply Nat.ltb_ge in Hlt. constructor; [now constructor|].
      assert (Hle : Forall (fun z => key z <= key y) (y :: l)).
      { constructor; [lia|]. eapply Forall_impl; [|exact Hy].
        intros z [Hz|[Hz _]]; lia. }
      rewrite Forall_forall in Hle, Hx. apply Forall_forall. intros z Hz.
      specialize (Hle _ Hz). specialize (Hx _ Hz). unfold lex.
      destruct (Nat.eq_dec (key z) (key x)); [right; split; [lia|exact Hx] | left; lia].
Qed.

Lemma sorted_reverse_lex (l : list A) :
  StronglySorted before l -> StronglySorted (lex key before) (sorted_reverse key l).
Proof.
  induction 1 as [|x l Hl IH Hx]; simpl; [constructor|].
  apply insert_reverse_lex; [exact IH|].
  eapply Permutation_Forall; [apply sorted_reverse_perm | exact Hx].
Qed.

End StableSortFacts.

Lemma insert_reverse_map {A B : Type} (key : B -> nat) (f : A -> B)
  (x : A) (l : list A) :
  insert_reverse key (f x) (map f l)
  = map f (insert_reverse (fun a => key (f a)) x l).
Proof.
  induction l as [|y l IH]; simpl; [reflexivity|].
  destruct (key (f x) <? key (f y)); simpl; [now rewrite IH | reflexivity].
Qed.

Lemma sorted_reverse_map {A B : Type} (key : B -> nat) (f : A -> B) (l : list A) :
  sorted_reverse key (map f l) = map f (sorted_reverse (fun a => key (f a)) l).
Proof.
  induction l as [|x l IH]; simpl; [reflexivity|].
  rewrite IH. apply insert_reverse_map.
Qed.

(** ** Reading and writing an item *)

Lemma key_eqb_refl (k : company_key) : key_eqb k k = true.
Proof. destruct k as [c|]; [apply String.eqb_refl | reflexivity]. Qed.

Lemma item_update_subscript (k : company_key) (f : data -> data)
  (d : company_dict) :
  item k (update k f (subscript k d)) = f (item k d).
Proof.
  induction d as [|[k' v] d IH].
  - unfold subscript. simpl. rewrite key_eqb_refl. simpl.
    now rewrite key_eqb_refl.
  - unfold subscript in *. simpl. destruct (key_eqb k' k) eqn:E; simpl.
    + rewrite E. simpl. now rewrite E.
    + destruct (contains k d); simpl; rewrite E; simpl; now rewrite E.
Qed.

(** A turn of the loop adds one course and the duration to the item of
    the company, whatever the duration. *)
Lemma item_add_record (d : company_dict) (c : string) (x : float) :
  item (Some c) (add_record d (c, x))
  = {| courses := courses (item (Some c) d) + 1;
       hours := (hours (item (Some c) d) + x)%float |}.
Proof.
  unfold add_record, add_hours, add_course. simpl fst. simpl snd.
  now rewrite !item_update_subscript.
Qed.

(** ** First occurrences *)

Lemma first_seen_In (x : string) (l : list string) :
  In x (first_seen l) <-> In x l.
Proof.
  induction l as [|y l IH]; simpl; [tauto|].
  rewrite filter_In, IH.
  destruct (String.eqb_spec x y) as [->|N]; simpl.
  - split; auto.
  - split; [intros [H|[H _]]; auto | intros [H|H]; [now left | auto]].
Qed.

Lemma first_seen_NoDup (l : list string) : NoDup (first_seen l).
Proof.
  induction l as [|y l IH]; simpl; constructor.
  - rewrite filter_In, String.eqb_refl. simpl. intros [_ H]. discriminate.
  - now apply NoDup_filter.
Qed.

Lemma first_seen_snoc (l : list string) (c : string) :
  first_seen (l ++ [c])
  = first_seen l ++ (if existsb (String.eqb c) l then [] else [c]).
Proof.
  induction l as [|y l IH]; [reflexivity|].
  simpl. rewrite IH, filter_app. f_equal. f_equal.
  destruct (existsb (String.eqb c) l); [now rewrite orb_true_r|].
  rewrite orb_false_r. simpl. now destruct (c =? y)%string.
Qed.

Lemma existsb_eqb_In (c : string) (l : list string) :
  existsb (String.eqb c) l = true <-> In c l.
Proof.
  rewrite existsb_exists. split.
  - intros [x [Hx E]]. apply String.eqb_eq in E. now subst.
  - intro H. exists c. split; [exact H | apply String.eqb_refl].
Qed.

Lemma StronglySorted_filter_impl {A : Type} (R R' : A -> A -> Prop)
  (p : A -> bool) (l : list A) :
  (forall a b, p a = true -> p b = true -> R' a b -> R a b) ->
  StronglySorted R' l -> StronglySorted R (filter p l).
Proof.
  intros HR. induction 1 as [|x l Hl IH Hx]; simpl; [constructor|].
  destruct (p x) eqn:Hp; [|exact IH].
  constructor; [exact IH|].
  apply Forall_forall. intros b Hb. apply filter_In in Hb as [Hb Hpb].
  rewrite Forall_forall in Hx. auto.
Qed.

(** [first_seen] lists the values by the position of their first
    occurrence. *)
Lemma first_seen_by_first_index (l : list string) :
  StronglySorted (fun a b => first_index a l < first_index b l) (first_seen l).
Proof.
  induction l as [|y l IH]; simpl; constructor.
  - eapply StronglySorted_filter_impl; [|exact IH].
    cbv beta. intros a b Ha Hb H.
    apply negb_true_iff in Ha, Hb.
    rewrite String.eqb_sym in Ha. rewrite String.eqb_sym in Hb.
    rewrite Ha, Hb. lia.
  - apply Forall_forall. intros b Hb. apply filter_In in Hb as [_ Hb].
    apply negb_true_iff in Hb. rewrite String.eqb_sym in Hb.
    rewrite String.eqb_refl, Hb. lia.
Qed.

(** ** The aggregate mapping *)

Lemma contains_entry (h : string -> data) (c : string) (l : list string) :
  contains (Some c) (map (entry h) l) = existsb (String.eqb c) l.
Proof.
  induction l as [|x l IH]; [reflexivity|].
  simpl. rewrite IH. now rewrite String.eqb_sym.
Qed.

Lemma update_entry (h : string -> data) (f : data -> data) (c : string)
  (l : list string) :
  NoDup l ->
  update (Some c) f (map (entry h) l)
  = map (entry (fun c' => if (c' =? c)%string then f (h c') else h c')) l.
Proof.
  induction 1 as [|x l Hx Hl IH]; [reflexivity|].
  simpl. destruct (String.eqb_spec x c) as [->|N].
  - f_equal; [unfold entry; now rewrite String.eqb_refl|].
    apply map_ext_in. intros c' Hc'. unfold entry.
    destruct (String.eqb_spec c' c) as [->|_]; [contradiction | reflexivity].
  - rewrite IH. f_equal. unfold entry.
    apply String.eqb_neq in N. now rewrite N.
Qed.

Lemma rows_of_snoc (c : string) (rs : list course_record) (r : course_record) :
  rows_of c (rs ++ [r])
  = rows_of c rs ++ (if (fst r =? c)%string then [r] else []).
Proof. unfold rows_of. now rewrite filter_app. Qed.

Lemma rows_of_absent (c : string) (rs : list course_record) :
  ~ In c (map fst rs) -> rows_of c rs = [].
Proof.
  intro H. unfold rows_of. induction rs as [|r rs IH]; [reflexivity|].
  simpl. destruct (String.eqb_spec (fst r) c) as [E|_].
  - exfalso. apply H. now left.
  - apply IH. intro Hin. apply H. now right.
Qed.

Lemma data_of_snoc_other (rs : list course_record) (r : course_record)
  (c : string) :
  fst r <> c -> data_of (rs ++ [r]) c = data_of rs c.
Proof.
  intro N. unfold data_of, course_count, total_hours_of.
  rewrite rows_of_snoc. apply String.eqb_neq in N. rewrite N, app_nil_r.
  reflexivity.
Qed.

Lemma data_of_snoc_same (rs : list course_record) (c : string) (d : float) :
  data_of (rs ++ [(c, d)]) c
  = {| courses := courses (data_of rs c) + 1;
       hours := (hours (data_of rs c) + d)%float |}.
Proof.
  unfold data_of, course_count, total_hours_of. simpl courses. simpl hours.
  rewrite rows_of_snoc. simpl fst. rewrite String.eqb_refl.
  rewrite length_app, map_app. unfold float_sum. rewrite fold_left_app.
  reflexivity.
Qed.

Lemma data_of_absent (rs : list course_record) (c : string) :
  ~ In c (map fst rs) -> data_of rs c = {| courses := 0; hours := 0%float |}.
Proof.
  intro H. unfold data_of, course_count, total_hours_of.
  now rewrite rows_of_absent.
Qed.

(** A turn of the loop takes the aggregates of the records read so far
    to those of the records with one more. *)
Lemma add_record_aggregates (rs : list course_record) (r : course_record) :
  add_record (map (aggregate_of rs) (companies rs)) r
  = map (aggregate_of (rs ++ [r])) (companies (rs ++ [r])).
Proof.
  destruct r as [c d]. unfold add_record, aggregate_of, companies. simpl fst. simpl snd.
  rewrite map_app. simpl map at 3. rewrite first_seen_snoc.
  unfold course_record in *.
  match goal with
  | |- context [existsb (String.eqb c) ?l] =>
      set (M := l); set (L := first_seen M)
  end.
  assert (HL : NoDup L) by apply first_seen_NoDup.
  assert (Hmem : existsb (String.eqb c) M = existsb (String.eqb c) L).
  { apply eq_true_iff_eq. rewrite !existsb_eqb_In. unfold L.
    now rewrite first_seen_In. }
  rewrite Hmem.
  unfold add_course, add_hours.
  unfold subscript at 2. rewrite contains_entry.
  destruct (existsb (String.eqb c) L) eqn:Hc.
  - rewrite app_nil_r. rewrite update_entry by exact HL.
    unfold subscript. rewrite contains_entry, Hc.
    rewrite update_entry by exact HL.
    apply map_ext. intro c'. unfold entry. f_equal.
    destruct (String.eqb_spec c' c) as [->|N].
    + now rewrite data_of_snoc_same.
    + symmetry. apply data_of_snoc_other. simpl. congruence.
  - assert (Hnot : ~ In c L).
    { intro Hin. apply existsb_eqb_In in Hin. congruence. }
    assert (Hnot' : ~ In c (map fst rs)).
    { unfold L in Hnot. rewrite first_seen_In in Hnot. exact Hnot. }
    assert (HL' : NoDup (L ++ [c])).
    { apply NoDup_app; [exact HL | repeat constructor; simpl; tauto |].
      intros x Hx [->|[]]. contradiction. }
    change [(Some c, {| courses := 0; hours := 0%float |})]
      with (map (entry (fun _ => {| courses := 0; hours := 0%float |})) [c]).
    assert (Hext : map (entry (data_of rs)) L ++
                   map (entry (fun _ => {| courses := 0; hours := 0%float |})) [c]
                   = map (entry (data_of rs)) (L ++ [c])).
    { rewrite map_app. f_equal. simpl. unfold entry. f_equal. f_equal.
      symmetry. now apply data_of_absent. }
    rewrite Hext. rewrite update_entry by exact HL'.
    unfold subscript. rewrite contains_entry.
    assert (Hin : existsb (String.eqb c) (L ++ [c]) = true).
    { apply existsb_eqb_In, in_or_app. right. now left. }
    rewrite Hin. rewrite update_entry by exact HL'.
    apply map_ext. intro c'. unfold entry. f_equal.
    destruct (String.eqb_spec c' c) as [->|N].
    + now rewrite data_of_snoc_same.
    + symmetry. apply data_of_snoc_other. simpl. congruence.
Qed.

Lemma fold_add_record (rs : list course_record) :
  fold_left add_record rs [] = map (aggregate_of rs) (companies rs).
Proof.
  induction rs as [|r rs IH] using rev_ind; [reflexivity|].
  rewrite fold_left_app. simpl. rewrite IH. apply add_record_aggregates.
Qed.

(** ** The number of courses *)

Lemma companies_snoc (rs : list course_record) (r : course_record) :
  companies (rs ++ [r])
  = companies rs
      ++ (if existsb (String.eqb (fst r)) (companies rs) then [] else [fst r]).
Proof.
  unfold companies. rewrite map_app. simpl map at 2. rewrite first_seen_snoc.
  f_equal. unfold course_record in *.
  assert (E : existsb (String.eqb (fst r)) (map fst rs)
              = existsb (String.eqb (fst r)) (first_seen (map fst rs))).
  { apply eq_true_iff_eq. rewrite !existsb_eqb_In. now rewrite first_seen_In. }
  now rewrite E.
Qed.

Lemma list_sum_indicator (c : string) (l : list string) :
  NoDup l ->
  list_sum (map (fun c' => if (c' =? c)%string then 1 else 0) l)
  = if existsb (String.eqb c) l then 1 else 0.
Proof.
  induction 1 as [|x l Hx Hl IH]; [reflexivity|].
  simpl. rewrite IH, (String.eqb_sym c x).
  destruct (String.eqb_spec x c) as [->|N]; simpl; [|reflexivity].
  destruct (existsb (String.eqb c) l) eqn:E; [|reflexivity].
  apply existsb_eqb_In in E. contradiction.
Qed.

Lemma list_sum_map_add {A : Type} (f g : A -> nat) (l : list A) :
  list_sum (map (fun a => f a + g a) l) = list_sum (map f l) + list_sum (map g l).
Proof. induction l as [|x l IH]; simpl; lia. Qed.

Lemma course_count_snoc (rs : list course_record) (r : course_record)
  (c : string) :
  course_count c (rs ++ [r])
  = course_count c rs + (if (c =? fst r)%string then 1 else 0).
Proof.
  unfold course_count. rewrite rows_of_snoc, length_app, (String.eqb_sym c).
  now destruct (fst r =? c)%string.
Qed.

(** The course counts of the companies add up to the number of records. *)
Lemma course_count_total (rs : list course_record) :
  list_sum (map (fun c => course_count c rs) (companies rs)) = List.length rs.
Proof.
  induction rs as [|r rs IH] using rev_ind; [reflexivity|].
  rewrite length_app, Nat.add_comm. simpl List.length.
  rewrite (map_ext _ _ (fun c => course_count_snoc rs r c)).
  rewrite list_sum_map_add, companies_snoc.
  assert (HL : NoDup (companies rs)) by apply first_seen_NoDup.
  rewrite !map_app, !list_sum_app.
  rewrite (list_sum_indicator (fst r) _ HL), IH.
  destruct (existsb (String.eqb (fst r)) (companies rs)) eqn:E; simpl.
  - lia.
  - rewrite String.eqb_refl.
    assert (H0 : course_count (fst r) rs = 0).
    { unfold course_count. rewrite rows_of_absent; [reflexivity|].
      intro Hin. apply (first_seen_In (fst r) (map fst rs)) in Hin.
      apply existsb_eqb_In in Hin. unfold companies in E. congruence. }
    rewrite H0. lia.
Qed.

(** ** The runs of the program *)

Section Runs.

Variable py_float : string -> option float.

Lemma process_row_record (d : company_dict) (row : pyrow) (r : course_record) :
  record_of py_float row = Some r ->
  process_row py_float d row = inr (add_record d r).
Proof.
  unfold record_of, process_row, getitem, float_of, add_record.
  destruct (dict_get "company" row) as [[c|]|]; try discriminate.
  destruct (dict_get "duration" row) as [[t|]|]; try discriminate.
  destruct (py_float t) as [x|]; try discriminate.
  intro H. injection H as <-. reflexivity.
Qed.

Lemma aggregate_records (rows : list pyrow) (rs : list course_record) :
  records_of py_float rows = Some rs ->
  forall d, aggregate py_float d rows = inr (fold_left add_record rs d).
Proof.
  revert rs. induction rows as [|row rows IH]; intros rs H d; simpl in *.
  - injection H as <-. reflexivity.
  - destruct (record_of py_float row) as [r|] eqn:Hr; [|discriminate].
    destruct (records_of py_float rows) as [rs'|]; [|discriminate].
    injection H as <-. rewrite (process_row_record _ _ _ Hr). simpl.
    now apply IH.
Qed.

Lemma records_of_length (rows : list pyrow) (rs : list course_record) :
  records_of py_float rows = Some rs -> List.length rs = List.length rows.
Proof.
  revert rs. induction rows as [|row rows IH]; intros rs H; simpl in H.
  - now injection H as <-.
  - destruct (record_of py_float row); [|discriminate].
    destruct (records_of py_float rows) as [rs'|]; [|discriminate].
    injection H as <-. simpl. now rewrite (IH rs').
Qed.

(** The aggregation of a valid file: the aggregate of each company, the
    companies in the order of their first row. *)
Lemma load_valid (file : option csv_rows) (rs : list course_record) :
  valid_file py_float file rs ->
  load py_float file = inr (map (aggregate_of rs) (companies rs)).
Proof.
  intros [rows [-> H]]. simpl.
  rewrite (aggregate_records _ _ H). now rewrite fold_add_record.
Qed.

Lemma aggregate_app (d : company_dict) (pre post : list pyrow) :
  aggregate py_float d (pre ++ post)
  = match aggregate py_float d pre with
    | inl e => inl e
    | inr d' => aggregate py_float d' post
    end.
Proof.
  revert d. induction pre as [|row pre IH]; intro d; [reflexivity|].
  simpl. destruct (process_row py_float d row); [reflexivity | apply IH].
Qed.

Lemma process_row_converts (d : company_dict) (row : pyrow) (v : field) :
  dict_get "company" row = Some v ->
  duration_converts py_float row = true ->
  exists d', process_row py_float d row = inr d'.
Proof.
  unfold duration_converts, process_row, getitem, float_of. intros -> H.
  destruct (dict_get "duration" row) as [[t|]|]; try discriminate.
  destruct (py_float t); [eexists; reflexivity | discriminate].
Qed.

Lemma aggregate_converts (d : company_dict) (rows : list pyrow) :
  (forall row, In row rows -> exists v, dict_get "company" row = Some v) ->
  forallb (duration_converts py_float) rows = true ->
  exists d', aggregate py_float d rows = inr d'.
Proof.
  revert d. induction rows as [|row rows IH]; intros d Hc Hd.
  - now exists d.
  - simpl in Hd. apply andb_true_iff in Hd as [Hrow Hrows].
    destruct (Hc row (or_introl eq_refl)) as [v Hv].
    destruct (process_row_converts d row v Hv Hrow) as [d' Hd'].
    simpl. rewrite Hd'. apply IH; [|exact Hrows].
    intros r Hr. apply Hc. now right.
Qed.

(** The error of a row that has both columns and a duration that does
    not convert: [ValueError] for a text, [TypeError] for [None]. *)
Lemma process_row_fails (d : company_dict) (row : pyrow) (v w : field) :
  dict_get "company" row = Some v ->
  dict_get "duration" row = Some w ->
  duration_converts py_float row = false ->
  process_row py_float d row
  = inl (if duration_unparseable py_float row then ValueError else TypeError).
Proof.
  unfold duration_converts, duration_unparseable, process_row, getitem, float_of.
  intros -> ->. destruct w as [t|]; [|reflexivity].
  destruct (py_float t); [discriminate | reflexivity].
Qed.

(** A failure of the aggregation ends the run after its first line. *)
Lemma run_load_error (csv_path : string) (file : option csv_rows) (e : exn) :
  load py_float file = inl e ->
  run py_float csv_path file = ([reading_line csv_path], inl e).
Proof.
  intro H. unfold run, main, bind at 1. unfold print at 1. simpl app.
  unfold bind. now rewrite H.
Qed.

Lemma run_load_ok (csv_path : string) (file : option csv_rows)
  (company_data : company_dict) :
  load py_float file = inr company_data ->
  run py_float csv_path file
  = display
      (sorted_reverse (fun x => courses (snd x)) company_data)
      [reading_line csv_path].
Proof.
  intro H. unfold run, main, bind at 1. unfold print at 1. simpl app.
  unfold bind at 1. now rewrite H.
Qed.

(** The program is one of the runs that [sorted] allows. *)
Lemma run_runs_to (csv_path : string) (file : option csv_rows) :
  runs_to py_float csv_path file (run py_float csv_path file).
Proof.
  destruct (load py_float file) as [e|company_data] eqn:H.
  - rewrite (run_load_error _ _ _ H). now constructor.
  - rewrite (run_load_ok _ _ _ H). econstructor; [exact H|].
    apply sorted_reverse_stable.
Qed.

(** The loop of the report over items whose companies are [str]. *)
Lemma report_entries (h : string -> data) (l : list string)
  (total_courses : nat) (total_hours : float) (out : stdout) :
  report (map (entry h) l) total_courses total_hours out
  = (out ++ map (fun c => line_text c (courses (h c)) (hours (h c))) l,
     inr (total_courses + list_sum (map (fun c => courses (h c)) l),
          fold_left PrimFloat.add (map (fun c => hours (h c)) l) total_hours)).
Proof.
  revert total_courses total_hours out.
  induction l as [|c l IH]; intros tc th out; simpl.
  - unfold ret. now rewrite app_nil_r, Nat.add_0_r.
  - unfold bind, lift, ret, print. simpl. rewrite IH.
    rewrite <- app_assoc. simpl. now rewrite Nat.add_assoc.
Qed.

(** The run on a valid file. *)
Lemma run_valid (csv_path : string) (file : option csv_rows)
  (rs : list course_record) :
  valid_file py_float file rs ->
  run py_float csv_path file
  = (report_text csv_path
       (map (line_of rs) (printed_companies rs))
       (list_sum (map (fun c => course_count c rs) (printed_companies rs)))
       (float_sum (map (fun c => total_hours_of c rs) (printed_companies rs))),
     inr tt).
Proof.
  intro H. unfold run, main, bind at 1. unfold print at 1. simpl app.
  unfold bind at 1. rewrite (load_valid _ _ H). unfold lift, ret.
  unfold aggregate_of. rewrite sorted_reverse_map.
  change (sorted_reverse (fun a => courses (snd (entry (data_of rs) a))) (companies rs))
    with (printed_companies rs).
  unfold display, bind, print. simpl app. rewrite report_entries.
  unfold report_text, line_of, float_sum. simpl fst. simpl snd.
  rewrite <- !app_assoc. reflexivity.
Qed.

End Runs.

(** The scenario of the specification, run. *)
Example acme_report :
  run PyFloat.of_decimal "complete_courses.csv" (Some acme_file)
  = (report_text "complete_courses.csv"
       ["Acme                :    2 courses  |       4.0 hours";
        "Globex              :    1 courses  |       3.0 hours"]%string
       3 7%float,
     inr tt)
  /\ total_line 3 7%float = "TOTAL: 3 courses  |  7.0 hours"%string.
Proof. split; vm_compute; reflexivity. Qed.

(** ** Rows and columns *)

Lemma dict_get_zip_row_absent (key : string) (fieldnames row : list string) :
  ~ In key fieldnames -> dict_get key (zip_row fieldnames row) = None.
Proof.
  revert row. induction fieldnames as [|k ks IH]; intros row H; [reflexivity|].
  assert (Hk : (k =? key)%string = false).
  { apply String.eqb_neq. intro E. apply H. now left. }
  assert (Hks : ~ In key ks) by (intro Hin; apply H; now right).
  destruct row as [|v vs]; simpl; now rewrite IH, Hk.
Qed.

Lemma dict_get_zip_row_present (key : string) (fieldnames row : list string) :
  In key fieldnames -> exists v, dict_get key (zip_row fieldnames row) = Some v.
Proof.
  revert row. induction fieldnames as [|k ks IH]; intros row H; [contradiction|].
  assert (Hcase : forall v row',
             exists w, dict_get key ((k, v) :: zip_row ks row') = Some w).
  { intros v row'. simpl.
    destruct (dict_get key (zip_row ks row')) as [w|] eqn:E; [now exists w|].
    destruct (String.eqb_spec k key) as [_|N]; [now exists v|].
    destruct H as [H|H]; [contradiction|].
    destruct (IH row' H) as [w Hw]. congruence. }
  destruct row as [|v vs]; simpl zip_row; apply Hcase.
Qed.

Lemma dict_get_zip_row_column (key : string) (fieldnames row : list string)
  (v : field) :
  dict_get key (zip_row fieldnames row) = Some v -> In key fieldnames.
Proof.
  intro H. destruct (in_dec string_dec key fieldnames) as [Hin|Hout]; [exact Hin|].
  rewrite (dict_get_zip_row_absent _ _ _ Hout) in H. discriminate.
Qed.

Lemma DictReader_rows (fieldnames : list string) (rest : csv_rows) (row : pyrow) :
  In row (DictReader (fieldnames :: rest)) ->
  exists r, row = zip_row fieldnames r.
Proof.
  simpl. intro H. apply in_map_iff in H as [r [<- _]]. now exists r.
Qed.

Lemma NoDup_map_Some {A : Type} (l : list A) : NoDup l -> NoDup (map Some l).
Proof.
  induction 1 as [|x l Hx Hl IH]; simpl; constructor; [|exact IH].
  intro Hin. apply in_map_iff in Hin as [y [E Hy]]. injection E as ->.
  contradiction.
Qed.

Lemma list_sum_perm (l l' : list nat) :
  Permutation l l' -> list_sum l = list_sum l'.
Proof. induction 1; simpl; lia. Qed.

(** The printed companies are the companies of the input, each once. *)
Lemma printed_companies_perm (rs : list course_record) :
  Permutation (printed_companies rs) (companies rs).
Proof. apply Permutation_sym, sorted_reverse_perm. Qed.

Lemma printed_course_count_total (rs : list course_record) :
  list_sum (map (fun c => course_count c rs) (printed_companies rs))
  = List.length rs.
Proof.
  rewrite <- course_count_total. apply list_sum_perm, Permutation_map.
  apply printed_companies_perm.
Qed.

(** A duration enters the hours of its company where its row stands. *)
Lemma total_hours_of_row (rs1 rs2 : list course_record) (c : string) (d : float) :
  total_hours_of c (rs1 ++ (c, d) :: rs2)
  = fold_left PrimFloat.add (map snd (rows_of c rs2))
      (total_hours_of c rs1 + d)%float.
Proof.
  unfold total_hours_of, float_sum, rows_of.
  rewrite filter_app. simpl filter. rewrite String.eqb_refl.
  rewrite map_app, fold_left_app. reflexivity.
Qed.

(** ** Widths *)

Lemma string_app_assoc (a b c : string) :
  ((a ++ b) ++ c)%string = (a ++ (b ++ c))%string.
Proof. induction a as [|x a IH]; simpl; [reflexivity | now rewrite IH]. Qed.

Lemma py_len_app (a b : string) :
  PyStr.py_len (a ++ b)%string = PyStr.py_len a + PyStr.py_len b.
Proof.
  induction a as [|x a IH]; simpl; [reflexivity|].
  destruct (PyStr.is_continuation x); simpl; now rewrite IH.
Qed.

Lemma py_len_spaces (n : nat) : PyStr.py_len (PyStr.spaces n) = n.
Proof.
  unfold PyStr.spaces. induction n as [|n IH]; [reflexivity|].
  simpl. now rewrite IH.
Qed.

Lemma py_len_ljust (w : nat) (s : string) :
  PyStr.py_len (PyStr.ljust w s) = Nat.max w (PyStr.py_len s).
Proof. unfold PyStr.ljust. rewrite py_len_app, py_len_spaces. lia. Qed.

Lemma slice_to_short (k : nat) (s : string) :
  PyStr.py_len s <= k -> PyStr.slice_to k s = s.
Proof.
  revert k. induction s as [|x s IH]; intros k H; [reflexivity|].
  simpl in *. destruct (PyStr.is_continuation x).
  - now rewrite IH.
  - destruct k as [|k]; [lia|]. rewrite IH; [reflexivity | lia].
Qed.

(** ** Failures of the aggregation *)

Lemma first_failure {A : Type} (p : A -> bool) (l : list A) :
  (exists x, In x l /\ p x = false) ->
  exists pre x post, l = pre ++ x :: post /\ forallb p pre = true /\ p x = false.
Proof.
  induction l as [|y l IH]; intros [x [Hin Hx]]; [contradiction|].
  destruct (p y) eqn:Hy.
  - destruct Hin as [->|Hin]; [congruence|].
    destruct IH as [pre [z [post [-> [Hpre Hz]]]]]; [now exists x|].
    exists (y :: pre), z, post. simpl. now rewrite Hy, Hpre.
  - now exists [], y, l.
Qed.

Lemma DictReader_blank (fieldnames : list string) (rest : csv_rows) :
  forallb is_blank rest = true -> DictReader (fieldnames :: rest) = [].
Proof.
  intro H. simpl. induction rest as [|r rest IH]; [reflexivity|].
  simpl in H. apply andb_true_iff in H as [Hr Hrest].
  simpl. rewrite Hr. simpl. now apply IH.
Qed.

(** ** The properties of the specification *)

(** C1. For every valid input file, after the aggregation pass the
    mapping has exactly one entry per distinct company of the input: its
    keys are without repetition, every company of the input is a key and
    every key is a company of the input; and the entry of a company holds
    the number of the data rows of that company and the sum of their
    parsed durations (the sum Python computes: from 0.0, in file order). *)
Theorem C1_aggregate_invariant (py_float : string -> option float)
  (file : option csv_rows) (rs : list course_record) :
  valid_file py_float file rs ->
  exists company_data,
    load py_float file = inr company_data
    /\ NoDup (map fst company_data)
    /\ (forall c, In c (map fst rs) -> exists v, In (Some c, v) company_data)
    /\ (forall k v, In (k, v) company_data ->
          exists c, k = Some c
                    /\ In c (map fst rs)
                    /\ courses v = course_count c rs
                    /\ hours v = total_hours_of c rs).
Proof.
  intro H. exists (map (aggregate_of rs) (companies rs)).
  split; [now apply load_valid|]. split; [|split].
  - unfold aggregate_of, entry. rewrite map_map. simpl.
    apply NoDup_map_Some, first_seen_NoDup.
  - intros c Hc. exists (data_of rs c).
    apply (in_map (aggregate_of rs)).
    exact (proj2 (first_seen_In c (map fst rs)) Hc).
  - intros k v Hin. apply in_map_iff in Hin as [c [E Hc]].
    unfold aggregate_of, entry in E. injection E as <- <-.
    exists c. repeat split.
    exact (proj1 (first_seen_In c (map fst rs)) Hc).
Qed.

Lemma C1_aggregate_invariant_witness :
  exists company_data,
    load PyFloat.of_decimal (Some acme_file) = inr company_data
    /\ NoDup (map fst company_data)
    /\ (forall c, In c (map fst acme_records) ->
          exists v, In (Some c, v) company_data)
    /\ (forall k v, In (k, v) company_data ->
          exists c, k = Some c
                    /\ In c (map fst acme_records)
                    /\ courses v = course_count c acme_records
                    /\ hours v = total_hours_of c acme_records).
Proof.
  apply (C1_aggregate_invariant PyFloat.of_decimal (Some acme_file) acme_records).
  exists acme_file. split; reflexivity.
Defined.

(** C2, as stated, fails on a valid file of non-negative durations: the
    total printed is 9007199254740996.0 hours, while the durations add up
    to 9007199254740997 exactly, and to 9007199254740992.0 when they are
    added as floats in file order. *)
Lemma C2_counterexample :
  valid_file PyFloat.of_decimal (Some big_hours_file) big_hours_records
  /\ run PyFloat.of_decimal "complete_courses.csv" (Some big_hours_file)
     = (report_text "complete_courses.csv"
          ["A                   :    3 courses  |  9007199254740992.0 hours";
           "B                   :    3 courses  |       3.0 hours"]%string
          6 9007199254740996%float,
        inr tt)
  /\ total_line 6 9007199254740996%float
     = "TOTAL: 6 courses  |  9007199254740996.0 hours"%string
  /\ (exact_sum (map snd big_hours_records) == 9007199254740997)%Q
  /\ ~ within_display_rounding 9007199254740996%float
         (exact_sum (map snd big_hours_records))
  /\ PyFloat.format_1f (float_sum (map snd big_hours_records))
     = "9007199254740992.0"%string.
Proof.
  split; [exists big_hours_file; split; reflexivity|].
  split; [vm_compute; reflexivity|].
  split; [vm_compute; reflexivity|].
  split; [vm_compute; reflexivity|].
  split; [|vm_compute; reflexivity].
  intro H. vm_compute in H. apply H. reflexivity.
Qed.

(** C2 (amended). For every valid input file, the totals line shows as
    total courses the number of data rows, and as total hours, to one
    decimal, the floating-point sum, in the order of the printed lines,
    of the hours of the companies, each the floating-point sum of the
    durations of the company in file order. *)
Theorem C2_grand_totals (py_float : string -> option float)
  (csv_path : string) (file : option csv_rows) (rs : list course_record) :
  valid_file py_float file rs ->
  exists rows order,
    file = Some rows
    /\ List.length rs = List.length (DictReader rows)
    /\ Permutation order (companies rs)
    /\ run py_float csv_path file
       = (report_text csv_path (map (line_of rs) order)
            (List.length rs)
            (float_sum (map (fun c => total_hours_of c rs) order)),
          inr tt).
Proof.
  intro H. destruct H as [rows [Hfile Hrs]].
  exists rows, (printed_companies rs).
  split; [exact Hfile|]. split; [now apply (records_of_length py_float)|].
  split; [apply printed_companies_perm|].
  rewrite (run_valid py_float csv_path file rs); [|now exists rows].
  now rewrite printed_course_count_total.
Qed.

Lemma C2_grand_totals_witness :
  exists rows order,
    Some acme_file = Some rows
    /\ List.length acme_records = List.length (DictReader rows)
    /\ Permutation order (companies acme_records)
    /\ run PyFloat.of_decimal "complete_courses.csv" (Some acme_file)
       = (report_text "complete_courses.csv"
            (map (line_of acme_records) order)
            (List.length acme_records)
            (float_sum (map (fun c => total_hours_of c acme_records) order)),
          inr tt).
Proof.
  apply (C2_grand_totals PyFloat.of_decimal "complete_courses.csv"
           (Some acme_file) acme_records).
  exists acme_file. split; reflexivity.
Defined.

(** C3. For every valid input file, the per-company lines are printed in
    non-increasing order of course count, and companies with equal course
    counts appear in the order of their first appearance in the input:
    the lines are those of the companies of the input, each once, in an
    order where an earlier company has more courses than a later one, or
    as many and an earlier first row. *)
Theorem C3_sorted_by_course_count (py_float : string -> option float)
  (csv_path : string) (file : option csv_rows) (rs : list course_record) :
  valid_file py_float file rs ->
  exists order total_courses total_hours,
    run py_float csv_path file
    = (report_text csv_path (map (line_of rs) order) total_courses total_hours,
       inr tt)
    /\ Permutation order (companies rs)
    /\ StronglySorted (fun a b => course_count b rs <= course_count a rs) order
    /\ StronglySorted (report_order rs) order.
Proof.
  intro H. eexists (printed_companies rs), _, _.
  split; [now apply run_valid|]. unfold printed_companies.
  split; [apply Permutation_sym, sorted_reverse_perm|].
  split; [apply (sorted_reverse_by_key (fun c => course_count c rs))|].
  apply (sorted_reverse_lex (fun c => course_count c rs)
           (fun a b => first_index a (map fst rs) < first_index b (map fst rs))).
  apply first_seen_by_first_index.
Qed.

Lemma C3_sorted_by_course_count_witness :
  exists order total_courses total_hours,
    run PyFloat.of_decimal "complete_courses.csv" (Some acme_file)
    = (report_text "complete_courses.csv"
         (map (line_of acme_records) order) total_courses total_hours,
       inr tt)
    /\ Permutation order (companies acme_records)
    /\ StronglySorted
         (fun a b => course_count b acme_records <= course_count a acme_records)
         order
    /\ StronglySorted (report_order acme_records) order.
Proof.
  apply (C3_sorted_by_course_count PyFloat.of_decimal "complete_courses.csv"
           (Some acme_file) acme_records).
  exists acme_file. split; reflexivity.
Defined.

(** C4, as stated, fails on a file whose header lacks the column
    [company]: its data row has a duration that is no number, and the
    error is the key error of the first row access, not a value error.
    It fails too on a file with both columns where a row too short to
    have a duration comes first: the error is a type error, at that
    earlier row. *)
Lemma C4_counterexample :
  ((exists row, In row (DictReader no_company_file)
                /\ duration_unparseable PyFloat.of_decimal row = true)
   /\ run PyFloat.of_decimal "complete_courses.csv" (Some no_company_file)
      = ([reading_line "complete_courses.csv"], inl (KeyError "company")))
  /\ ((exists row, In row (DictReader short_row_file)
                   /\ duration_unparseable PyFloat.of_decimal row = true)
      /\ run PyFloat.of_decimal "complete_courses.csv" (Some short_row_file)
         = ([reading_line "complete_courses.csv"], inl TypeError)).
Proof.
  split; split.
  - exists [("duration", Some "abc")]%string. split; [now left | reflexivity].
  - reflexivity.
  - exists [("company", Some "Acme"); ("duration", Some "abc")]%string.
    split; [right; now left | reflexivity].
  - reflexivity.
Qed.

(** C4 (amended). For every input file whose header names the column
    [company] and which has a data row whose duration is a text that
    [float] refuses, the program fails at the first data row whose
    duration does not convert, with a value error when that duration is
    such a text (a type error when the row is too short to have one), and
    it has printed the line that announces the file and no line of the
    report: no banner, title, per-company line or totals line. *)
Theorem C4_unparseable_duration (py_float : string -> option float)
  (csv_path : string) (fieldnames : list string) (rest : csv_rows) :
  In "company"%string fieldnames ->
  (exists row, In row (DictReader (fieldnames :: rest))
               /\ duration_unparseable py_float row = true) ->
  exists pre row post company_data,
    DictReader (fieldnames :: rest) = pre ++ row :: post
    /\ forallb (duration_converts py_float) pre = true
    /\ duration_converts py_float row = false
    /\ aggregate py_float [] pre = inr company_data
    /\ process_row py_float company_data row
       = inl (if duration_unparseable py_float row
              then ValueError else TypeError)
    /\ run py_float csv_path (Some (fieldnames :: rest))
       = ([reading_line csv_path],
          inl (if duration_unparseable py_float row
               then ValueError else TypeError)).
Proof.
  intros Hcompany [bad [Hbad Hun]].
  assert (Hcols : forall row, In row (DictReader (fieldnames :: rest)) ->
            (exists v, dict_get "company" row = Some v)
            /\ (exists w, dict_get "duration" row = Some w)).
  { assert (Hduration : In "duration"%string fieldnames).
    { destruct (DictReader_rows _ _ _ Hbad) as [r ->].
      unfold duration_unparseable in Hun.
      destruct (dict_get "duration" (zip_row fieldnames r)) as [v|] eqn:E;
        [|discriminate].
      exact (dict_get_zip_row_column _ _ _ _ E). }
    intros row Hrow. destruct (DictReader_rows _ _ _ Hrow) as [r ->].
    split; now apply dict_get_zip_row_present. }
  destruct (first_failure (duration_converts py_float)
              (DictReader (fieldnames :: rest)))
    as [pre [row [post [E [Hpre Hrow]]]]].
  { exists bad. split; [exact Hbad|].
    unfold duration_unparseable in Hun. unfold duration_converts.
    destruct (dict_get "duration" bad) as [[t|]|]; try discriminate.
    now destruct (py_float t). }
  assert (Hin : forall x, In x (pre ++ row :: post) ->
                  In x (DictReader (fieldnames :: rest))) by now rewrite E.
  destruct (aggregate_converts py_float [] pre) as [d Hd]; [|exact Hpre|].
  { intros x Hx. apply Hcols, Hin, in_or_app. now left. }
  destruct (Hcols row) as [[v Hv] [w Hw]].
  { apply Hin, in_or_app. right. now left. }
  assert (Hfail := process_row_fails py_float d row v w Hv Hw Hrow).
  exists pre, row, post, d. repeat split; try assumption.
  apply run_load_error. unfold load. rewrite E, aggregate_app, Hd.
  cbn [aggregate]. now rewrite Hfail.
Qed.

Lemma C4_unparseable_duration_witness :
  exists pre row post company_data,
    DictReader (["company"; "duration"]%string :: bad_duration_rows)
    = pre ++ row :: post
    /\ forallb (duration_converts PyFloat.of_decimal) pre = true
    /\ duration_converts PyFloat.of_decimal row = false
    /\ aggregate PyFloat.of_decimal [] pre = inr company_data
    /\ process_row PyFloat.of_decimal company_data row
       = inl (if duration_unparseable PyFloat.of_decimal row
              then ValueError else TypeError)
    /\ run PyFloat.of_decimal "complete_courses.csv"
         (Some (["company"; "duration"]%string :: bad_duration_rows))
       = ([reading_line "complete_courses.csv"],
          inl (if duration_unparseable PyFloat.of_decimal row
               then ValueError else TypeError)).
Proof.
  apply (C4_unparseable_duration PyFloat.of_decimal "complete_courses.csv"
           ["company"; "duration"]%string bad_duration_rows).
  - now left.
  - exists [("company", Some "Acme"); ("duration", Some "abc")]%string.
    split; [right; now left | reflexivity].
Defined.

(** C5, as stated, fails on a company name of more than 20 characters:
    the name is printed whole, where the layout of the specification
    cuts it to 20 characters. *)
Lemma C5_counterexample :
  valid_file PyFloat.of_decimal (Some long_name_file) long_name_records
  /\ run PyFloat.of_decimal "complete_courses.csv" (Some long_name_file)
     = (report_text "complete_courses.csv"
          ["International Business Machines:    1 courses  |       1.5 hours"]%string
          1 1.5%float,
        inr tt)
  /\ spec_line_text "International Business Machines" 1 1.5%float
     = "International Busine:    1 courses  |       1.5 hours"%string
  /\ line_of long_name_records "International Business Machines"
     <> spec_line_text "International Business Machines" 1 1.5%float.
Proof.
  split; [exists long_name_file; split; reflexivity|].
  split; [vm_compute; reflexivity|].
  split; [vm_compute; reflexivity|].
  vm_compute. discriminate.
Qed.

(** C5 (amended). For every valid input file, each per-company line is
    the company name, left-aligned and filled with spaces to at least 20
    characters (a longer name is printed whole: nothing is cut), then
    [: ], the course count right-aligned in at least 4 characters,
    [ courses  |  ], the hours with one decimal right-aligned in at
    least 8 characters, and [ hours]. For a name of at most 20 characters
    this is the fixed-width layout of the specification. *)
Theorem C5_line_layout (py_float : string -> option float)
  (csv_path : string) (file : option csv_rows) (rs : list course_record) :
  valid_file py_float file rs ->
  exists order total_courses total_hours,
    run py_float csv_path file
    = (report_text csv_path (map (line_of rs) order) total_courses total_hours,
       inr tt)
    /\ Permutation order (companies rs)
    /\ forall c, In c order ->
         line_of rs c
         = (c ++ PyStr.spaces (20 - PyStr.py_len c) ++ ": "
              ++ PyStr.spaces (4 - PyStr.py_len (PyStr.of_nat (course_count c rs)))
              ++ PyStr.of_nat (course_count c rs)
              ++ " courses  |  "
              ++ PyStr.spaces
                   (8 - PyStr.py_len (PyFloat.format_1f (total_hours_of c rs)))
              ++ PyFloat.format_1f (total_hours_of c rs)
              ++ " hours")%string
         /\ PyStr.py_len (PyStr.ljust 20 c) = Nat.max 20 (PyStr.py_len c)
         /\ (PyStr.py_len c <= 20 ->
             line_of rs c
             = spec_line_text c (course_count c rs) (total_hours_of c rs)).
Proof.
  intro H. eexists (printed_companies rs), _, _.
  split; [now apply run_valid|]. split; [apply printed_companies_perm|].
  intros c _. split; [|split].
  - unfold line_of, line_text, format_4d, format_8_1f, PyStr.ljust, PyStr.rjust.
    now rewrite !string_app_assoc.
  - apply py_len_ljust.
  - intro Hc. unfold line_of, line_text, spec_line_text, spec_company_field.
    now rewrite slice_to_short.
Qed.

Lemma C5_line_layout_witness :
  exists order total_courses total_hours,
    run PyFloat.of_decimal "complete_courses.csv" (Some acme_file)
    = (report_text "complete_courses.csv"
         (map (line_of acme_records) order) total_courses total_hours,
       inr tt)
    /\ Permutation order (companies acme_records)
    /\ forall c, In c order ->
         line_of acme_records c
         = (c ++ PyStr.spaces (20 - PyStr.py_len c) ++ ": "
              ++ PyStr.spaces
                   (4 - PyStr.py_len (PyStr.of_nat (course_count c acme_records)))
              ++ PyStr.of_nat (course_count c acme_records)
              ++ " courses  |  "
              ++ PyStr.spaces
                   (8 - PyStr.py_len
                          (PyFloat.format_1f (total_hours_of c acme_records)))
              ++ PyFloat.format_1f (total_hours_of c acme_records)
              ++ " hours")%string
         /\ PyStr.py_len (PyStr.ljust 20 c) = Nat.max 20 (PyStr.py_len c)
         /\ (PyStr.py_len c <= 20 ->
             line_of acme_records c
             = spec_line_text c (course_count c acme_records)
                 (total_hours_of c acme_records)).
Proof.
  apply (C5_line_layout PyFloat.of_decimal "complete_courses.csv"
           (Some acme_file) acme_records).
  exists acme_file. split; reflexivity.
Defined.

(** C6, as stated, fails: when the file cannot be opened, the line that
    announces the file is already on standard output. *)
Lemma C6_counterexample :
  fst (run PyFloat.of_decimal "complete_courses.csv" None)
  = [reading_line "complete_courses.csv"]
  /\ snd (run PyFloat.of_decimal "complete_courses.csv" None) = inl OSError
  /\ stdout_text (fst (run PyFloat.of_decimal "complete_courses.csv" None))
     <> ""%string.
Proof.
  split; [reflexivity|]. split; [reflexivity|]. vm_compute. discriminate.
Qed.

(** C6 (amended). If the input file is missing or unreadable, the program
    fails fatally when it opens the file, after it has printed the line
    that announces the file and the blank line after it, and no more: no
    line of the report is printed. *)
Theorem C6_unreadable_file (py_float : string -> option float)
  (csv_path : string) :
  run py_float csv_path None = ([reading_line csv_path], inl OSError)
  /\ stdout_text (fst (run py_float csv_path None))
     = ("Reading file: " ++ csv_path ++ String "010" (String "010" ""))%string.
Proof.
  split; [reflexivity|].
  change (fst (run py_float csv_path None)) with [reading_line csv_path].
  unfold stdout_text, reading_line. simpl fold_right.
  now rewrite !string_app_assoc.
Qed.

(** C7. If the header lacks the column [company] or the column
    [duration], the program fails on the first data row, with the key
    error of the missing column, and before any report line is printed:
    the output is the line that announces the file, and no more. *)
Theorem C7_missing_column (py_float : string -> option float)
  (csv_path : string) (fieldnames : list string)
  (rest : csv_rows) (row : pyrow) (rows : list pyrow) :
  DictReader (fieldnames :: rest) = row :: rows ->
  ~ In "company"%string fieldnames \/ ~ In "duration"%string fieldnames ->
  exists key,
    (key = "company" \/ key = "duration")%string
    /\ ~ In key fieldnames
    /\ process_row py_float [] row = inl (KeyError key)
    /\ run py_float csv_path (Some (fieldnames :: rest))
       = ([reading_line csv_path], inl (KeyError key)).
Proof.
  intros Hrows Hmissing.
  assert (Hrow : exists r, row = zip_row fieldnames r).
  { apply (DictReader_rows fieldnames rest). rewrite Hrows. now left. }
  destruct Hrow as [r ->].
  assert (Hkey : exists key,
             (key = "company" \/ key = "duration")%string
             /\ ~ In key fieldnames
             /\ process_row py_float [] (zip_row fieldnames r)
                = inl (KeyError key)).
  { destruct (in_dec string_dec "company"%string fieldnames) as [Hc|Hc].
    - destruct Hmissing as [Hm|Hd]; [contradiction|].
      exists "duration"%string. split; [now right|]. split; [exact Hd|].
      unfold process_row, getitem.
      destruct (dict_get_zip_row_present _ _ r Hc) as [v ->].
      now rewrite (dict_get_zip_row_absent _ _ r Hd).
    - exists "company"%string. split; [now left|]. split; [exact Hc|].
      unfold process_row, getitem.
      now rewrite (dict_get_zip_row_absent _ _ r Hc). }
  destruct Hkey as [key [Hk [Hout Hp]]]. exists key.
  repeat split; try assumption.
  apply run_load_error. unfold load. rewrite Hrows. cbn [aggregate].
  now rewrite Hp.
Qed.

Lemma C7_missing_column_witness :
  exists key,
    (key = "company" \/ key = "duration")%string
    /\ ~ In key ["company"; "hours"]%string
    /\ process_row PyFloat.of_decimal []
         [("company", Some "Acme"); ("hours", Some "2.5")]%string
       = inl (KeyError key)
    /\ run PyFloat.of_decimal "complete_courses.csv"
         (Some (["company"; "hours"]%string :: no_duration_rows))
       = ([reading_line "complete_courses.csv"], inl (KeyError key)).
Proof.
  apply (C7_missing_column PyFloat.of_decimal "complete_courses.csv"
           ["company"; "hours"]%string no_duration_rows
           [("company", Some "Acme"); ("hours", Some "2.5")]%string []).
  - reflexivity.
  - right. simpl. intros [H|[H|[]]]; discriminate.
Defined.

(** C8. For an input file with a header row and no data row (the lines
    after the header, if any, are blank), the program succeeds, and its
    report has no per-company line and the totals line
    [TOTAL: 0 courses  |  0.0 hours]. *)
Theorem C8_header_only (py_float : string -> option float)
  (csv_path : string) (fieldnames : list string) (rest : csv_rows) :
  forallb is_blank rest = true ->
  run py_float csv_path (Some (fieldnames :: rest))
  = ([reading_line csv_path; banner; title; banner; "";
      ""; banner; "TOTAL: 0 courses  |  0.0 hours"; banner; ""]%string,
     inr tt).
Proof.
  intro H. rewrite (run_load_ok py_float csv_path _ []).
  - reflexivity.
  - unfold load. now rewrite (DictReader_blank _ _ H).
Qed.

Lemma C8_header_only_witness :
  run PyFloat.of_decimal "complete_courses.csv"
    (Some (["company"; "duration"]%string :: []))
  = ([reading_line "complete_courses.csv"; banner; title; banner; "";
      ""; banner; "TOTAL: 0 courses  |  0.0 hours"; banner; ""]%string,
     inr tt).
Proof.
  apply (C8_header_only PyFloat.of_decimal "complete_courses.csv"
           ["company"; "duration"]%string []).
  reflexivity.
Defined.

(** C9. The program is deterministic: two runs on the same path and the
    same file contents, whatever stable sort [sorted] is, end in the same
    way and have written the same text on standard output; both are the
    run of the model. *)
Theorem C9_deterministic (py_float : string -> option float)
  (csv_path : string) (file : option csv_rows)
  (o1 o2 : stdout * (exn + unit)) :
  runs_to py_float csv_path file o1 ->
  runs_to py_float csv_path file o2 ->
  o1 = o2
  /\ stdout_text (fst o1) = stdout_text (fst o2)
  /\ o1 = run py_float csv_path file.
Proof.
  assert (Hfun : forall a b,
             runs_to py_float csv_path file a ->
             runs_to py_float csv_path file b -> a = b).
  { intros a b [e1 L1|d1 s1 L1 S1] [e2 L2|d2 s2 L2 S2];
      rewrite L1 in L2; try discriminate.
    - now injection L2 as ->.
    - injection L2 as ->.
      now rewrite (stable_sorted_reverse_unique _ _ _ _ S1 S2). }
  intros H1 H2. rewrite (Hfun o1 o2 H1 H2). repeat split.
  apply (Hfun o2 _ H2), run_runs_to.
Qed.

Lemma C9_deterministic_witness :
  run PyFloat.of_decimal "complete_courses.csv" (Some globex_first_file)
  = display globex_first_sorted [reading_line "complete_courses.csv"]
  /\ stdout_text
       (fst (run PyFloat.of_decimal "complete_courses.csv"
               (Some globex_first_file)))
     = stdout_text
         (fst (display globex_first_sorted
                 [reading_line "complete_courses.csv"]))
  /\ run PyFloat.of_decimal "complete_courses.csv" (Some globex_first_file)
     = run PyFloat.of_decimal "complete_courses.csv" (Some globex_first_file).
Proof.
  apply (C9_deterministic PyFloat.of_decimal "complete_courses.csv"
           (Some globex_first_file)).
  - apply run_runs_to.
  - apply (runs_to_display PyFloat.of_decimal "complete_courses.csv"
             (Some globex_first_file) globex_first_data globex_first_sorted).
    + reflexivity.
    + split.
      * repeat constructor; unfold by_key; simpl; lia.
      * intro k. destruct k as [|[|[|k]]]; reflexivity.
Defined.

(** C10. A data row whose duration converts to a float, whatever the
    float (negative, infinite, not a number), raises no error and adds
    one course and that float to the item of its company; on a file whose
    rows all convert the run succeeds, the duration is in the hours of
    its company where its row stands, and the hours of the company are a
    term of the grand total. No sign is checked. *)
Theorem C10_any_float_is_added (py_float : string -> option float)
  (csv_path : string) (file : option csv_rows)
  (rs1 rs2 : list course_record) (c : string) (d : float) :
  valid_file py_float file (rs1 ++ (c, d) :: rs2) ->
  (forall company_data row,
      record_of py_float row = Some (c, d) ->
      exists company_data',
        process_row py_float company_data row = inr company_data'
        /\ item (Some c) company_data'
           = {| courses := courses (item (Some c) company_data) + 1;
                hours := (hours (item (Some c) company_data) + d)%float |})
  /\ exists order,
      Permutation order (companies (rs1 ++ (c, d) :: rs2))
      /\ In c order
      /\ run py_float csv_path file
         = (report_text csv_path
              (map (line_of (rs1 ++ (c, d) :: rs2)) order)
              (List.length (rs1 ++ (c, d) :: rs2))
              (float_sum
                 (map (fun c' => total_hours_of c' (rs1 ++ (c, d) :: rs2))
                      order)),
            inr tt)
      /\ total_hours_of c (rs1 ++ (c, d) :: rs2)
         = fold_left PrimFloat.add (map snd (rows_of c rs2))
             (total_hours_of c rs1 + d)%float.
Proof.
  intro H. split.
  - intros company_data row Hrow. exists (add_record company_data (c, d)).
    split; [now apply process_row_record | apply item_add_record].
  - exists (printed_companies (rs1 ++ (c, d) :: rs2)).
    split; [apply printed_companies_perm|]. split; [|split].
    + eapply Permutation_in; [apply Permutation_sym, printed_companies_perm|].
      apply (proj2 (first_seen_In c _)). rewrite map_app. apply in_or_app.
      right. now left.
    + rewrite (run_valid _ _ _ _ H). now rewrite printed_course_count_total.
    + apply total_hours_of_row.
Qed.

Lemma C10_any_float_is_added_witness :
  (forall company_data row,
      record_of PyFloat.of_decimal row = Some ("Acme"%string, (-2)%float) ->
      exists company_data',
        process_row PyFloat.of_decimal company_data row = inr company_data'
        /\ item (Some "Acme"%string) company_data'
           = {| courses := courses (item (Some "Acme"%string) company_data) + 1;
                hours := (hours (item (Some "Acme"%string) company_data)
                          + (-2))%float |})
  /\ exists order,
      Permutation order
        (companies ([] ++ ("Acme"%string, (-2)%float) :: odd_hours_rest))
      /\ In "Acme"%string order
      /\ run PyFloat.of_decimal "complete_courses.csv" (Some odd_hours_file)
         = (report_text "complete_courses.csv"
              (map (line_of ([] ++ ("Acme"%string, (-2)%float) :: odd_hours_rest))
                   order)
              (List.length ([] ++ ("Acme"%string, (-2)%float) :: odd_hours_rest))
              (float_sum
                 (map (fun c' =>
                         total_hours_of c'
                           ([] ++ ("Acme"%string, (-2)%float) :: odd_hours_rest))
                      order)),
            inr tt)
      /\ total_hours_of "Acme"
           ([] ++ ("Acme"%string, (-2)%float) :: odd_hours_rest)
         = fold_left PrimFloat.add (map snd (rows_of "Acme" odd_hours_rest))
             (total_hours_of "Acme" [] + (-2))%float.
Proof.
  apply (C10_any_float_is_added PyFloat.of_decimal "complete_courses.csv"
           (Some odd_hours_file) [] odd_hours_rest "Acme"%string (-2)%float).
  exists odd_hours_file. split; reflexivity.
Defined.

(** * Further properties of the program *)

(** ** Keys and counts of the mapping *)

Lemma key_eqb_eq (a b : company_key) : key_eqb a b = true <-> a = b.
Proof.
  destruct a as [x|], b as [y|]; simpl; try (split; congruence).
  rewrite String.eqb_eq. split; congruence.
Qed.

Lemma contains_In (k : company_key) (d : company_dict) :
  contains k d = true <-> In k (map fst d).
Proof.
  induction d as [|[k' v] d IH]; simpl; [split; [discriminate | tauto]|].
  rewrite orb_true_iff, key_eqb_eq, IH. tauto.
Qed.

Lemma subscript_cons_other (k k' : company_key) (v : data) (d : company_dict) :
  key_eqb k' k = false ->
  subscript k ((k', v) :: d) = (k', v) :: subscript k d.
Proof.
  intro E. unfold subscript. simpl. rewrite E. simpl.
  now destruct (contains k d).
Qed.

Lemma subscript_cons_same (k k' : company_key) (v : data) (d : company_dict) :
  key_eqb k' k = true -> subscript k ((k', v) :: d) = (k', v) :: d.
Proof. intro E. unfold subscript. simpl. now rewrite E. Qed.

(** The keys after [company_data[k][...] = ...]: those before, and [k]
    last when it is new. *)
Lemma keys_update_subscript (k : company_key) (f : data -> data)
  (d : company_dict) :
  map fst (update k f (subscript k d))
  = map fst d ++ (if contains k d then [] else [k]).
Proof.
  induction d as [|[k' v] d IH].
  - unfold subscript. simpl. now rewrite key_eqb_refl.
  - destruct (key_eqb k' k) eqn:E.
    + rewrite (subscript_cons_same _ _ _ _ E). simpl. rewrite E. simpl.
      now rewrite app_nil_r.
    + rewrite (subscript_cons_other _ _ _ _ E). simpl. rewrite E. simpl.
      now rewrite IH.
Qed.

Lemma contains_update_subscript (k : company_key) (f : data -> data)
  (d : company_dict) :
  contains k (update k f (subscript k d)) = true.
Proof.
  apply contains_In. rewrite keys_update_subscript. apply in_or_app.
  destruct (contains k d) eqn:E; [left; now apply contains_In | right; now left].
Qed.

Lemma keys_add (k : company_key) (x : float) (d : company_dict) :
  map fst (add_hours k x (add_course k d))
  = map fst d ++ (if contains k d then [] else [k]).
Proof.
  unfold add_hours. rewrite keys_update_subscript.
  unfold add_course. rewrite contains_update_subscript, app_nil_r.
  apply keys_update_subscript.
Qed.

Lemma courses_total_update_subscript (k : company_key) (f : data -> data)
  (n : nat) (d : company_dict) :
  (forall v, courses (f v) = courses v + n) ->
  courses_total (update k f (subscript k d)) = courses_total d + n.
Proof.
  intro Hf. unfold courses_total. induction d as [|[k' v] d IH].
  - unfold subscript. simpl. rewrite key_eqb_refl. simpl. rewrite Hf. simpl. lia.
  - destruct (key_eqb k' k) eqn:E.
    + rewrite (subscript_cons_same _ _ _ _ E). simpl. rewrite E. simpl.
      rewrite Hf. lia.
    + rewrite (subscript_cons_other _ _ _ _ E). simpl. rewrite E. simpl.
      rewrite IH. lia.
Qed.

Lemma courses_total_add (k : company_key) (x : float) (d : company_dict) :
  courses_total (add_hours k x (add_course k d)) = S (courses_total d).
Proof.
  unfold add_hours, add_course.
  rewrite (courses_total_update_subscript k _ 0) by (intro v; simpl; lia).
  rewrite (courses_total_update_subscript k _ 1) by (intro v; reflexivity).
  lia.
Qed.

Lemma positive_update_subscript (k : company_key) (f : data -> data)
  (d : company_dict) :
  (forall v, courses v <= courses (f v)) ->
  (1 <= courses (f {| courses := 0; hours := 0%float |})
   \/ contains k d = true) ->
  Forall (fun it => 1 <= courses (snd it)) d ->
  Forall (fun it => 1 <= courses (snd it)) (update k f (subscript k d)).
Proof.
  intros Hf Hnew Hd. induction Hd as [|[k' v] d Hv Hd IH].
  - unfold subscript. simpl. rewrite key_eqb_refl. repeat constructor. simpl.
    destruct Hnew as [H|H]; [exact H | discriminate].
  - destruct (key_eqb k' k) eqn:E.
    + rewrite (subscript_cons_same _ _ _ _ E). simpl. rewrite E.
      constructor; [|exact Hd]. simpl in *. specialize (Hf v). lia.
    + rewrite (subscript_cons_other _ _ _ _ E). simpl. rewrite E.
      constructor; [exact Hv|]. apply IH.
      destruct Hnew as [H|H]; [now left|]. right. simpl in H.
      now rewrite E in H.
Qed.

Lemma positive_add (k : company_key) (x : float) (d : company_dict) :
  Forall (fun it => 1 <= courses (snd it)) d ->
  Forall (fun it => 1 <= courses (snd it)) (add_hours k x (add_course k d)).
Proof.
  intro H. unfold add_hours. apply positive_update_subscript.
  - intro v. simpl. lia.
  - right. unfold add_course. apply contains_update_subscript.
  - unfold add_course. apply positive_update_subscript; [| |exact H].
    + intro v. simpl. lia.
    + left. simpl. lia.
Qed.

Lemma NoDup_keys_add (k : company_key) (x : float) (d : company_dict) :
  NoDup (map fst d) -> NoDup (map fst (add_hours k x (add_course k d))).
Proof.
  intro H. rewrite keys_add. destruct (contains k d) eqn:E.
  - now rewrite app_nil_r.
  - apply NoDup_app; [exact H | repeat constructor; simpl; tauto |].
    intros a Ha [<-|[]]. apply contains_In in Ha. congruence.
Qed.

(** ** What a turn of the loop needs and does *)

Section Turns.

Variable py_float : string -> option float.

Lemma process_row_inr (d d' : company_dict) (row : pyrow) :
  process_row py_float d row = inr d' ->
  exists company text x,
    dict_get "company" row = Some company
    /\ dict_get "duration" row = Some (Some text)
    /\ py_float text = Some x
    /\ d' = add_hours company x (add_course company d).
Proof.
  unfold process_row, getitem, float_of.
  destruct (dict_get "company" row) as [company|]; [|discriminate].
  destruct (dict_get "duration" row) as [[text|]|]; try discriminate.
  destruct (py_float text) as [x|] eqn:Hx; [|discriminate].
  intro H. injection H as <-. now exists company, text, x.
Qed.

(** The errors of a turn: a column that is not there, a duration that is
    not a number, a duration that is not there. *)
Lemma process_row_inl (d : company_dict) (row : pyrow) (e : exn) :
  process_row py_float d row = inl e ->
  (e = KeyError "company" /\ dict_get "company" row = None)
  \/ (e = KeyError "duration" /\ dict_get "duration" row = None)
  \/ (e = ValueError /\ duration_unparseable py_float row = true)
  \/ (e = TypeError /\ dict_get "duration" row = Some None).
Proof.
  unfold process_row, getitem, float_of, duration_unparseable.
  destruct (dict_get "company" row) as [company|].
  - destruct (dict_get "duration" row) as [[text|]|].
    + destruct (py_float text) as [x|]; [discriminate|].
      intro H. injection H as <-. right. right. left. now split.
    + intro H. injection H as <-. right. right. right. now split.
    + intro H. injection H as <-. right. left. now split.
  - intro H. injection H as <-. left. now split.
Qed.

Lemma process_row_same (d : company_dict) (r1 r2 : pyrow) :
  same_fields r1 r2 -> process_row py_float d r1 = process_row py_float d r2.
Proof.
  intros [Hc Hd]. unfold process_row, getitem. now rewrite Hc, Hd.
Qed.

Lemma aggregate_same (d : company_dict) (l1 l2 : list pyrow) :
  Forall2 same_fields l1 l2 ->
  aggregate py_float d l1 = aggregate py_float d l2.
Proof.
  intro H. revert d. induction H as [|r1 r2 l1 l2 Hr Hl IH]; intro d;
    [reflexivity|].
  simpl. rewrite (process_row_same d r1 r2 Hr).
  destruct (process_row py_float d r2); [reflexivity | apply IH].
Qed.

(** A failure of the loop is the failure of one turn after turns that
    succeed. *)
Lemma aggregate_inl_split (d : company_dict) (rows : list pyrow) (e : exn) :
  aggregate py_float d rows = inl e ->
  exists pre row post d',
    rows = pre ++ row :: post
    /\ aggregate py_float d pre = inr d'
    /\ process_row py_float d' row = inl e.
Proof.
  revert d. induction rows as [|row rows IH]; intros d H; [discriminate|].
  simpl in H. destruct (process_row py_float d row) as [e'|d1] eqn:Hrow.
  - injection H as <-. now exists [], row, rows, d.
  - destruct (IH d1 H) as [pre [r [post [d' [-> [Hpre Hr]]]]]].
    exists (row :: pre), r, post, d'. simpl. now rewrite Hrow.
Qed.

(** What the loop keeps: keys without repetition, counts of at least
    one course, and one more course in all per row. *)
Lemma aggregate_invariant (d d' : company_dict) (rows : list pyrow) :
  aggregate py_float d rows = inr d' ->
  NoDup (map fst d) ->
  Forall (fun it => 1 <= courses (snd it)) d ->
  NoDup (map fst d')
  /\ Forall (fun it => 1 <= courses (snd it)) d'
  /\ courses_total d' = courses_total d + List.length rows.
Proof.
  revert d. induction rows as [|row rows IH]; intros d H Hk Hp; simpl in H.
  - injection H as <-. repeat split; try assumption. simpl. lia.
  - destruct (process_row py_float d row) as [e|d1] eqn:Hrow; [discriminate|].
    destruct (process_row_inr _ _ _ Hrow) as [k [t [x [_ [_ [_ ->]]]]]].
    destruct (IH _ H (NoDup_keys_add k x d Hk) (positive_add k x d Hp))
      as [Hk' [Hp' Ht]].
    repeat split; try assumption.
    rewrite Ht, courses_total_add. simpl. lia.
Qed.

(** The keys of the mapping are the companies of the rows read, and each
    row read has a company and a duration that converts. *)
Lemma aggregate_rows (d d' : company_dict) (rows : list pyrow) :
  aggregate py_float d rows = inr d' ->
  incl (map fst d) (map fst d')
  /\ (forall k, In k (map fst d') ->
        In k (map fst d)
        \/ exists row, In row rows /\ dict_get "company" row = Some k)
  /\ Forall (fun row =>
               exists company,
                 dict_get "company" row = Some company
                 /\ In company (map fst d')
                 /\ duration_converts py_float row = true) rows.
Proof.
  revert d. induction rows as [|row rows IH]; intros d H; simpl in H.
  - injection H as <-. split; [apply incl_refl|]. split; [now left | constructor].
  - destruct (process_row py_float d row) as [e|d1] eqn:Hrow; [discriminate|].
    destruct (process_row_inr _ _ _ Hrow) as [k [t [x [Hc [Hd [Hx ->]]]]]].
    destruct (IH _ H) as [Hincl [Hfrom Hrows]].
    pose proof (keys_add k x d) as Hkeys.
    assert (Hkin : In k (map fst (add_hours k x (add_course k d)))).
    { rewrite Hkeys. apply in_or_app.
      destruct (contains k d) eqn:E;
        [left; now apply contains_In | right; now left]. }
    split; [|split].
    + intros a Ha. apply Hincl. rewrite Hkeys. apply in_or_app. now left.
    + intros a Ha. destruct (Hfrom a Ha) as [Hin|[r [Hr Hrk]]].
      * rewrite Hkeys in Hin. apply in_app_or in Hin as [Hin|Hin];
          [now left|]. right. exists row. split; [now left|].
        destruct (contains k d); [contradiction|].
        destruct Hin as [<-|[]]. exact Hc.
      * right. exists r. split; [now right | exact Hrk].
    + constructor.
      * exists k. split; [exact Hc|]. split; [now apply Hincl|].
        unfold duration_converts. now rewrite Hd, Hx.
      * eapply Forall_impl; [|exact Hrows]. intros r [c Hr]. now exists c.
Qed.

Lemma run_of_load (csv_path : string) (f1 f2 : option csv_rows) :
  load py_float f1 = load py_float f2 ->
  run py_float csv_path f1 = run py_float csv_path f2.
Proof.
  intro H. destruct (load py_float f1) as [e|d] eqn:H1; symmetry in H.
  - now rewrite (run_load_error _ _ _ _ H1), (run_load_error _ _ _ _ H).
  - now rewrite (run_load_ok _ _ _ _ H1), (run_load_ok _ _ _ _ H).
Qed.

End Turns.

(** ** The ways the display ends *)

Lemma items_first_none (l : company_dict) :
  (exists ps, l = map str_item ps)
  \/ (exists before v after, l = map str_item before ++ (None, v) :: after).
Proof.
  induction l as [|[[c|] v] l IH].
  - left. now exists [].
  - destruct IH as [[ps ->]|[before [w [after ->]]]].
    + left. now exists ((c, v) :: ps).
    + right. now exists ((c, v) :: before), w, after.
  - right. now exists [], v, l.
Qed.

Lemma report_str_items (before : list (string * data)) (rest : company_dict)
  (total_courses : nat) (total_hours : float) (out : stdout) :
  report (map str_item before ++ rest) total_courses total_hours out
  = report rest
      (total_courses + courses_total (map str_item before))
      (fold_left PrimFloat.add (map (fun p => hours (snd p)) before) total_hours)
      (out ++ map item_line before).
Proof.
  revert total_courses total_hours out.
  induction before as [|[c v] before IH]; intros tc th out.
  - simpl. now rewrite Nat.add_0_r, app_nil_r.
  - simpl. unfold bind, lift, ret, print. simpl. rewrite IH.
    unfold courses_total. simpl. rewrite <- app_assoc. simpl.
    now rewrite Nat.add_assoc.
Qed.

Lemma report_all_str_items (ps : list (string * data))
  (total_courses : nat) (total_hours : float) (out : stdout) :
  report (map str_item ps) total_courses total_hours out
  = (out ++ map item_line ps,
     inr (total_courses + courses_total (map str_item ps),
          fold_left PrimFloat.add (map (fun p => hours (snd p)) ps) total_hours)).
Proof.
  pose proof (report_str_items ps [] total_courses total_hours out) as H.
  rewrite app_nil_r in H. exact H.
Qed.

(** The display of items that are all of [str] companies: the report. *)
Lemma display_str_items (ps : list (string * data)) (out : stdout) :
  display (map str_item ps) out
  = (out ++ [banner; title; banner; ""%string] ++ map item_line ps
         ++ [""%string; banner;
             total_line (courses_total (map str_item ps))
               (float_sum (map (fun p => hours (snd p)) ps));
             banner; ""%string],
     inr tt).
Proof.
  unfold display, bind, print. simpl app. rewrite report_all_str_items.
  unfold float_sum. simpl. rewrite <- !app_assoc. simpl. reflexivity.
Qed.

(** The display of items with a company [None]: the lines before it, and
    a type error. *)
Lemma display_none_item (before : list (string * data)) (v : data)
  (after : company_dict) (out : stdout) :
  display (map str_item before ++ (None, v) :: after) out
  = (out ++ [banner; title; banner; ""%string] ++ map item_line before,
     inl TypeError).
Proof.
  unfold display, bind, print. simpl app. rewrite report_str_items. simpl.
  unfold bind, lift, raise. simpl. rewrite <- !app_assoc. simpl. reflexivity.
Qed.

Lemma display_error (l : company_dict) (out out' : stdout) (e : exn) :
  display l out = (out', inl e) ->
  e = TypeError
  /\ exists before v after,
       l = map str_item before ++ (None, v) :: after
       /\ out' = out ++ [banner; title; banner; ""%string] ++ map item_line before.
Proof.
  destruct (items_first_none l) as [[ps ->]|[before [v [after ->]]]].
  - rewrite display_str_items. discriminate.
  - rewrite display_none_item. intro H. injection H as <- <-.
    split; [reflexivity|]. now exists before, v, after.
Qed.

Lemma keys_str_items (ps : list (string * data)) :
  ~ In None (map fst (map str_item ps)).
Proof.
  rewrite map_map. intro H. apply in_map_iff in H as [p [E _]]. discriminate.
Qed.

Lemma keys_sorted_reverse (k : company_key) (d : company_dict) :
  In k (map fst (sorted_reverse (fun x => courses (snd x)) d))
  <-> In k (map fst d).
Proof.
  assert (P : Permutation (map fst d)
                (map fst (sorted_reverse (fun x => courses (snd x)) d)))
    by apply Permutation_map, sorted_reverse_perm.
  split; [apply Permutation_in, Permutation_sym, P | apply Permutation_in, P].
Qed.

(** A value [None] in a row: the row is shorter than the header. *)
Lemma dict_get_zip_row_short (key : string) (fieldnames row : list string) :
  dict_get key (zip_row fieldnames row) = Some None ->
  List.length row < List.length fieldnames.
Proof.
  revert row. induction fieldnames as [|k ks IH]; intros row H; [discriminate|].
  destruct row as [|v vs]; [simpl; lia|].
  simpl in H. destruct (dict_get key (zip_row ks vs)) as [w|] eqn:E.
  - injection H as ->. specialize (IH vs E). simpl. lia.
  - destruct (k =? key)%string; discriminate.
Qed.

Lemma DictReader_data_rows (fieldnames : list string) (rest : csv_rows)
  (row : pyrow) :
  In row (DictReader (fieldnames :: rest)) ->
  exists r, In r rest /\ r <> [] /\ row = zip_row fieldnames r.
Proof.
  simpl. intro H. apply in_map_iff in H as [r [<- Hr]].
  apply filter_In in Hr as [Hin Hb]. exists r. repeat split; [exact Hin|].
  intros ->. discriminate.
Qed.

Section RecordsOfRows.

Variable py_float : string -> option float.



End RecordsOfRows.

(** ** The further properties *)


(** X2. When the rows all load and one of them is too short to have a
    company, the program prints the banners, the title and the lines of
    the companies sorted before the missing one, then fails with a type
    error: the totals are never printed. *)
Theorem X2_partial_report (py_float : string -> option float)
  (csv_path : string) (rows : csv_rows) (company_data : company_dict)
  (row : pyrow) :
  load py_float (Some rows) = inr company_data ->
  In row (DictReader rows) ->
  dict_get "company" row = Some None ->
  exists before v after,
    sorted_reverse (fun x => courses (snd x)) company_data
    = map str_item before ++ (None, v) :: after
    /\ run py_float csv_path (Some rows)
       = ([reading_line csv_path; banner; title; banner; ""%string]
            ++ map item_line before,
          inl TypeError).
Proof.
  intros L Hrow Hc.
  assert (Hnone : In None (map fst company_data)).
  { simpl in L. destruct (aggregate_rows _ _ _ _ L) as [_ [_ Hrows]].
    rewrite Forall_forall in Hrows.
    destruct (Hrows row Hrow) as [k [Hk [Hin _]]].
    rewrite Hc in Hk. injection Hk as <-. exact Hin. }
  apply keys_sorted_reverse in Hnone.
  destruct (items_first_none
              (sorted_reverse (fun x => courses (snd x)) company_data))
    as [[ps E]|[before [v [after E]]]].
  - rewrite E in Hnone. now apply keys_str_items in Hnone.
  - exists before, v, after. split; [exact E|].
    rewrite (run_load_ok _ _ _ _ L), E. apply display_none_item.
Qed.

Lemma X2_partial_report_witness :
  exists before v after,
    sorted_reverse (fun x => courses (snd x)) short_company_data
    = map str_item before ++ (None, v) :: after
    /\ run PyFloat.of_decimal "complete_courses.csv" (Some short_company_file)
       = ([reading_line "complete_courses.csv"; banner; title; banner;
           ""%string]
            ++ map item_line before,
          inl TypeError).
Proof.
  apply (X2_partial_report PyFloat.of_decimal "complete_courses.csv"
           short_company_file short_company_data
           [("duration", Some "3.0"); ("company", None)]%string).
  - reflexivity.
  - right. right. now left.
  - reflexivity.
Defined.

(** X3. Only the company and the duration of the rows count: two files
    whose data rows hold, row by row, the same company and the same
    duration give the same run, whatever their other columns and the
    order of their columns. *)
Theorem X3_other_columns_ignored (py_float : string -> option float)
  (csv_path : string) (file1 file2 : csv_rows) :
  Forall2 same_fields (DictReader file1) (DictReader file2) ->
  run py_float csv_path (Some file1) = run py_float csv_path (Some file2).
Proof.
  intro H. apply run_of_load. simpl. now apply aggregate_same.
Qed.

Lemma X3_other_columns_ignored_witness :
  run PyFloat.of_decimal "complete_courses.csv" (Some acme_file)
  = run PyFloat.of_decimal "complete_courses.csv" (Some catalog_file).
Proof.
  apply (X3_other_columns_ignored PyFloat.of_decimal "complete_courses.csv"
           acme_file catalog_file).
  repeat constructor.
Defined.

(** X4. Whenever the aggregation succeeds, also on rows without a
    company, the mapping has no key twice, every entry counts at least
    one course, and the course counts add up to the number of data
    rows. *)
Theorem X4_aggregation_invariant (py_float : string -> option float)
  (file : option csv_rows) (company_data : company_dict) :
  load py_float file = inr company_data ->
  exists rows,
    file = Some rows
    /\ NoDup (map fst company_data)
    /\ Forall (fun it => 1 <= courses (snd it)) company_data
    /\ courses_total company_data = List.length (DictReader rows).
Proof.
  destruct file as [rows|]; [|discriminate]. simpl. intro L.
  destruct (aggregate_invariant py_float [] company_data (DictReader rows) L)
    as [Hk [Hp Ht]]; [constructor | constructor|].
  exists rows. repeat split; assumption.
Qed.

Lemma X4_aggregation_invariant_witness :
  exists rows,
    Some short_company_file = Some rows
    /\ NoDup (map fst short_company_data)
    /\ Forall (fun it => 1 <= courses (snd it)) short_company_data
    /\ courses_total short_company_data = List.length (DictReader rows).
Proof.
  apply (X4_aggregation_invariant PyFloat.of_decimal (Some short_company_file)
           short_company_data).
  reflexivity.
Defined.


(** X6. A per-company line is as wide as its three fields and the 21
    characters between and after them: the name in at least 20
    characters, the count in at least 4, the hours in at least 8. When
    the three fit their widths the line has 53 characters. *)
Theorem X6_line_width (company : string) (courses : nat) (hours : float) :
  exists line,
    company_line (Some company) courses hours = inr line
    /\ PyStr.py_len line
       = Nat.max 20 (PyStr.py_len company)
         + Nat.max 4 (PyStr.py_len (PyStr.of_nat courses))
         + Nat.max 8 (PyStr.py_len (PyFloat.format_1f hours))
         + 21
    /\ (PyStr.py_len company <= 20 ->
        PyStr.py_len (PyStr.of_nat courses) <= 4 ->
        PyStr.py_len (PyFloat.format_1f hours) <= 8 ->
        PyStr.py_len line = 53).
Proof.
  eexists. split; [reflexivity|].
  assert (Hr : forall w s, PyStr.py_len (PyStr.rjust w s)
                           = Nat.max w (PyStr.py_len s)).
  { intros w s. unfold PyStr.rjust. rewrite py_len_app, py_len_spaces. lia. }
  assert (E : PyStr.py_len
                (PyStr.ljust 20 company ++ ": " ++ format_4d courses
                   ++ " courses  |  " ++ format_8_1f hours ++ " hours")%string
              = Nat.max 20 (PyStr.py_len company)
                + Nat.max 4 (PyStr.py_len (PyStr.of_nat courses))
                + Nat.max 8 (PyStr.py_len (PyFloat.format_1f hours))
                + 21).
  { rewrite !py_len_app, py_len_ljust. unfold format_4d, format_8_1f.
    rewrite !Hr. simpl PyStr.py_len. lia. }
  split; [exact E|]. intros H1 H2 H3. rewrite E. lia.
Qed.

(** X7. A key error is always that of a header without the column
    [company] or without the column [duration], raised on the first data
    row and before any line of the report. *)
Theorem X7_key_error_only_from_header (py_float : string -> option float)
  (csv_path : string) (file : option csv_rows) (out : stdout) (key : string) :
  run py_float csv_path file = (out, inl (KeyError key)) ->
  exists fieldnames rest row rows,
    file = Some (fieldnames :: rest)
    /\ DictReader (fieldnames :: rest) = row :: rows
    /\ (key = "company" \/ key = "duration")%string
    /\ ~ In key fieldnames
    /\ process_row py_float [] row = inl (KeyError key)
    /\ out = [reading_line csv_path].
Proof.
  intro H. destruct (load py_float file) as [e|d] eqn:L.
  2:{ rewrite (run_load_ok _ _ _ _ L) in H.
      destruct (display_error _ _ _ _ H) as [E _]. discriminate. }
  rewrite (run_load_error _ _ _ _ L) in H. injection H as <- ->.
  destruct file as [[|fieldnames rest]|]; try discriminate.
  unfold load in L.
  destruct (aggregate_inl_split _ _ _ _ L)
    as [pre [row [post [d [E [Hpre Hrow]]]]]].
  assert (Hkey : (key = "company" \/ key = "duration")%string
                 /\ dict_get key row = None).
  { destruct (process_row_inl _ _ _ _ Hrow)
      as [[Ek Hk]|[[Ek Hk]|[[Ek _]|[Ek _]]]]; try discriminate;
      injection Ek as ->; split; auto. }
  destruct Hkey as [Hkey Hnone].
  assert (Hout : ~ In key fieldnames).
  { intro Hin.
    destruct (DictReader_rows fieldnames rest row) as [r ->].
    { rewrite E. apply in_or_app. right. now left. }
    destruct (dict_get_zip_row_present key fieldnames r Hin) as [v Hv].
    congruence. }
  destruct pre as [|p pre].
  - simpl in E, Hpre. injection Hpre as <-.
    now exists fieldnames, rest, row, post.
  - exfalso. apply Hout.
    destruct (DictReader_rows fieldnames rest p) as [r ->].
    { rewrite E. now left. }
    simpl in Hpre.
    destruct (process_row py_float [] (zip_row fieldnames r)) as [e'|d1] eqn:Hp;
      [discriminate|].
    destruct (process_row_inr _ _ _ _ Hp) as [c [t [x [Hc [Hd _]]]]].
    destruct Hkey as [->| ->];
      [exact (dict_get_zip_row_column _ _ _ _ Hc)
      | exact (dict_get_zip_row_column _ _ _ _ Hd)].
Qed.

Lemma X7_key_error_only_from_header_witness :
  exists fieldnames rest row rows,
    Some (["company"; "hours"]%string :: no_duration_rows)
    = Some (fieldnames :: rest)
    /\ DictReader (fieldnames :: rest) = row :: rows
    /\ ("duration" = "company" \/ "duration" = "duration")%string
    /\ ~ In "duration"%string fieldnames
    /\ process_row PyFloat.of_decimal [] row = inl (KeyError "duration")
    /\ [reading_line "complete_courses.csv"]
       = [reading_line "complete_courses.csv"].
Proof.
  apply (X7_key_error_only_from_header PyFloat.of_decimal
           "complete_courses.csv"
           (Some (["company"; "hours"]%string :: no_duration_rows))
           [reading_line "complete_courses.csv"] "duration"%string).
  reflexivity.
Defined.



(** X9. A type error is always that of a data row with fewer fields than
    the header: one too short to have a duration, and then only the line
    that announces the file is printed, or one too short to have a
    company, and then the error comes in the report, after its banners
    and title. *)
Theorem X9_type_error_only_from_short_row (py_float : string -> option float)
  (csv_path : string) (file : option csv_rows) (out : stdout) :
  run py_float csv_path file = (out, inl TypeError) ->
  exists fieldnames rest r,
    file = Some (fieldnames :: rest)
    /\ In r rest
    /\ r <> []
    /\ List.length r < List.length fieldnames
    /\ ((dict_get "duration" (zip_row fieldnames r) = Some None
         /\ out = [reading_line csv_path])
        \/ (dict_get "company" (zip_row fieldnames r) = Some None
            /\ exists lines,
                 out = [reading_line csv_path; banner; title; banner;
                        ""%string] ++ lines)).
Proof.
  intro H. destruct (load py_float file) as [e|d] eqn:L.
  - rewrite (run_load_error _ _ _ _ L) in H. injection H as <- ->.
    destruct file as [[|fieldnames rest]|]; try discriminate.
    unfold load in L.
    destruct (aggregate_inl_split _ _ _ _ L)
      as [pre [row [post [d [E [Hpre Hrow]]]]]].
    destruct (DictReader_data_rows fieldnames rest row) as [r [Hr [Hnb ->]]].
    { rewrite E. apply in_or_app. right. now left. }
    destruct (process_row_inl _ _ _ _ Hrow)
      as [[Ek _]|[[Ek _]|[[Ek _]|[_ Hd]]]]; try discriminate.
    exists fieldnames, rest, r. repeat split; try assumption.
    + exact (dict_get_zip_row_short _ _ _ Hd).
    + left. now split.
  - rewrite (run_load_ok _ _ _ _ L) in H.
    destruct (display_error _ _ _ _ H) as [_ [before [v [after [E ->]]]]].
    assert (Hnone : In None (map fst d)).
    { apply keys_sorted_reverse. rewrite E, map_app. apply in_or_app.
      right. now left. }
    destruct file as [[|fieldnames rest]|]; try discriminate.
    + simpl in L. injection L as <-. contradiction.
    + unfold load in L.
      destruct (aggregate_rows _ _ _ _ L) as [_ [Hfrom _]].
      destruct (Hfrom None Hnone) as [[]|[row [Hrow Hc]]].
      destruct (DictReader_data_rows fieldnames rest row Hrow)
        as [r [Hr [Hnb ->]]].
      exists fieldnames, rest, r. repeat split; try assumption.
      * exact (dict_get_zip_row_short _ _ _ Hc).
      * right. split; [exact Hc|]. now exists (map item_line before).
Qed.

Lemma X9_type_error_only_from_short_row_witness :
  exists fieldnames rest r,
    Some short_company_file = Some (fieldnames :: rest)
    /\ In r rest
    /\ r <> []
    /\ List.length r < List.length fieldnames
    /\ ((dict_get "duration" (zip_row fieldnames r) = Some None
         /\ [reading_line "complete_courses.csv"; banner; title; banner;
             ""%string;
             "Acme                :    2 courses  |       4.0 hours"%string]
            = [reading_line "complete_courses.csv"])
        \/ (dict_get "company" (zip_row fieldnames r) = Some None
            /\ exists lines,
                 [reading_line "complete_courses.csv"; banner; title; banner;
                  ""%string;
                  "Acme                :    2 courses  |       4.0 hours"%string]
                 = [reading_line "complete_courses.csv"; banner; title;
                    banner; ""%string] ++ lines)).
Proof.
  apply (X9_type_error_only_from_short_row PyFloat.of_decimal
           "complete_courses.csv" (Some short_company_file)
           [reading_line "complete_courses.csv"; banner; title; banner;
            ""%string;
            "Acme                :    2 courses  |       4.0 hours"%string]).
  vm_compute. reflexivity.
Defined.

(** ** The order of the rows and the counts *)

Lemma item_update_other (k k' : company_key) (f : data -> data)
  (d : company_dict) :
  key_eqb k k' = false -> item k' (update k f (subscript k d)) = item k' d.
Proof.
  intro N. induction d as [|[k0 v] d IH].
  - unfold subscript. simpl. rewrite key_eqb_refl. simpl. now rewrite N.
  - destruct (key_eqb k0 k) eqn:E.
    + rewrite (subscript_cons_same _ _ _ _ E). simpl. rewrite E. simpl.
      apply key_eqb_eq in E. subst k0. now rewrite N.
    + rewrite (subscript_cons_other _ _ _ _ E). simpl. rewrite E. simpl.
      now rewrite IH.
Qed.

(** A turn of the loop for the company [k] adds one course to the item
    of [k] and leaves the counts of the other items. *)
Lemma courses_item_add (k k' : company_key) (x : float) (d : company_dict) :
  courses (item k' (add_hours k x (add_course k d)))
  = courses (item k' d) + (if key_eqb k k' then 1 else 0).
Proof.
  unfold add_hours, add_course. destruct (key_eqb k k') eqn:E.
  - apply key_eqb_eq in E. subst k'. now rewrite !item_update_subscript.
  - rewrite !(item_update_other _ _ _ _ E). lia.
Qed.

Lemma filter_length_perm {A : Type} (p : A -> bool) (l l' : list A) :
  Permutation l l' -> List.length (filter p l) = List.length (filter p l').
Proof.
  induction 1 as [|x l l' _ IH|x y l|l l' l'' _ IH1 _ IH2]; simpl.
  - reflexivity.
  - destruct (p x); simpl; now rewrite IH.
  - destruct (p x), (p y); reflexivity.
  - now rewrite IH1.
Qed.

Section RowOrder.

Variable py_float : string -> option float.

(** Whether a turn succeeds does not depend on the mapping. *)
Lemma process_row_succeeds (d1 d2 d1' : company_dict) (row : pyrow) :
  process_row py_float d1 row = inr d1' ->
  exists d2', process_row py_float d2 row = inr d2'.
Proof.
  intro H. destruct (process_row_inr _ _ _ _ H) as [k [t [x [Hc [Hd [Hx _]]]]]].
  unfold process_row, getitem, float_of. rewrite Hc, Hd, Hx. now eexists.
Qed.

Lemma aggregate_all_load (d d' : company_dict) (rows : list pyrow) :
  aggregate py_float d rows = inr d' ->
  Forall (fun row => exists d1, process_row py_float [] row = inr d1) rows.
Proof.
  revert d. induction rows as [|row rows IH]; intros d H; [constructor|].
  simpl in H. destruct (process_row py_float d row) as [e|d1] eqn:Hrow;
    [discriminate|].
  constructor; [exact (process_row_succeeds _ _ _ _ Hrow) | exact (IH _ H)].
Qed.

Lemma aggregate_of_all_load (d : company_dict) (rows : list pyrow) :
  Forall (fun row => exists d1, process_row py_float [] row = inr d1) rows ->
  exists d', aggregate py_float d rows = inr d'.
Proof.
  intro H. revert d. induction H as [|row rows [d1 Hrow] _ IH]; intro d.
  - now exists d.
  - destruct (process_row_succeeds _ d _ _ Hrow) as [d2 Hd2].
    simpl. rewrite Hd2. apply IH.
Qed.

(** The count of a key after the loop: its count before, and one for
    each row of that company. *)
Lemma aggregate_courses (k : company_key) (d d' : company_dict)
  (rows : list pyrow) :
  aggregate py_float d rows = inr d' ->
  courses (item k d') = courses (item k d) + rows_with k rows.
Proof.
  unfold rows_with. revert d. induction rows as [|row rows IH]; intros d H;
    simpl in H.
  - injection H as <-. simpl. lia.
  - destruct (process_row py_float d row) as [e|d1] eqn:Hrow; [discriminate|].
    destruct (process_row_inr _ _ _ _ Hrow) as [c [t [x [Hc [_ [_ ->]]]]]].
    rewrite (IH _ H), courses_item_add. simpl. unfold company_is at 2.
    rewrite Hc. destruct (key_eqb c k); simpl; lia.
Qed.

End RowOrder.

(** X10. The order of the data rows does not change the counts: when a
    file loads, a file with the same data rows in another order loads
    too, and each company, also the missing one of short rows, has the
    same number of courses in both, which is the number of its rows. *)
Theorem X10_counts_ignore_row_order (py_float : string -> option float)
  (rows1 rows2 : csv_rows) (d1 : company_dict) :
  Permutation (DictReader rows1) (DictReader rows2) ->
  load py_float (Some rows1) = inr d1 ->
  exists d2,
    load py_float (Some rows2) = inr d2
    /\ forall k,
         courses (item k d1) = rows_with k (DictReader rows1)
         /\ courses (item k d2) = courses (item k d1).
Proof.
  simpl. intros P L1.
  destruct (aggregate_of_all_load py_float [] (DictReader rows2)) as [d2 L2].
  { eapply Permutation_Forall; [exact P|].
    exact (aggregate_all_load _ _ _ _ L1). }
  exists d2. split; [exact L2|]. intro k.
  rewrite (aggregate_courses py_float k _ _ _ L1).
  rewrite (aggregate_courses py_float k _ _ _ L2).
  unfold rows_with. rewrite (filter_length_perm _ _ _ P). simpl. lia.
Qed.

Lemma X10_counts_ignore_row_order_witness :
  exists d2,
    load PyFloat.of_decimal (Some globex_first_file) = inr d2
    /\ forall k,
         courses (item k [(Some "Acme"%string, {| courses := 2; hours := 4%float |});
                          (Some "Globex"%string, {| courses := 1; hours := 3%float |})])
         = rows_with k (DictReader acme_file)
         /\ courses (item k d2)
            = courses (item k [(Some "Acme"%string, {| courses := 2; hours := 4%float |});
                               (Some "Globex"%string, {| courses := 1; hours := 3%float |})]).
Proof.
  apply (X10_counts_ignore_row_order PyFloat.of_decimal acme_file
           globex_first_file).
  - simpl.
    match goal with
    | |- Permutation [?a; ?b; ?c] _ =>
        apply (Permutation_cons_app [c] [b]);
        apply (Permutation_cons_app [c] []);
        apply Permutation_refl
    end.
  - reflexivity.
Defined.
